(** * Device Lifecycle Dashboard ([dashboard.py]): load, select, filter, summarise

    A shallow embedding of the data pipeline of [dashboard.py]: [load_data],
    the session state, the three sidebar widgets, the "Clear All Filters"
    button, the filter block and the four key metrics of [main].

    Conventions.
    - A Python [float] / numpy [float64] is Rocq's primitive binary64 [float];
      comparisons are the IEEE ones, so every comparison with NaN is false.
    - A Python exception that the script does not catch is [Raise].
    - [st.session_state] is the record [SessionState]; what the browser and the
      widget store hold for one run of the script is the record [Widgets].
    - Of the timeline (lines 326-375) the traces' names, legend flags and
      positions and the tick labels are modelled. The templated HTML, the
      hover texts, the reasons chart and the detail cards are left out: they
      format and order the values computed here with [str.format],
      [strftime], [value_counts] and [sort_values], whose results (rounding,
      locale, order among ties) the script does not fix. What they can raise
      is left out with them; [dashboard] says where that matters.
    - The slider of line 218 comes twice: [slider], the value the widget
      holds and nothing else, and [bounded_slider], with the bounds of lines
      219-220. *)

From Stdlib Require Import ZArith Floats Lia.
From stdpp Require Import base option list strings sorting.

Local Open Scope string_scope.
Local Open Scope list_scope.

(** ** Results of code that can raise *)

Inductive exn :=
| IndexError
| KeyError (label : string)
| ValueError
| TypeError.

Inductive result (A : Type) :=
| Ok (a : A)
| Raise (e : exn).
Arguments Ok {A} a.
Arguments Raise {A} e.

Definition bind {A B} (r : result A) (k : A -> result B) : result B :=
  match r with
  | Ok a => k a
  | Raise e => Raise e
  end.

Notation "'let*' x ':=' r 'in' k" := (bind r (fun x => k))
  (at level 10, x name, r at level 100, k at level 200).

Fixpoint map_result {A B} (f : A -> result B) (l : list A) : result (list B) :=
  match l with
  | [] => Ok []
  | a :: l' => let* b := f a in let* bs := map_result f l' in Ok (b :: bs)
  end.

(** ** Cells and frames (what [pd.read_excel] returns) *)

Record Timestamp := { ts_year : Z; ts_month : Z; ts_day : Z }.

(** One cell of a frame. A blank spreadsheet cell is read as [CFloat nan]. *)
Inductive Cell :=
| CStr (s : string)
| CFloat (x : float)
| CInt (n : Z)
| CTime (t : Timestamp)
| CNaT.

(** A frame, row by row: [rows] holds one cell per label of [columns]. *)
Record Frame := { columns : list string; rows : list (list Cell) }.

(** [l.index(x)]: the position of the first [x]; [None] where Python raises
    [ValueError]. *)
Fixpoint index (x : string) (l : list string) : option nat :=
  match l with
  | [] => None
  | y :: l' => if decide (y = x) then Some 0 else S <$> index x l'
  end.

(** The items of [l] at the positions where [mask] is [true]. *)
Fixpoint select {A} (mask : list bool) (l : list A) : list A :=
  match mask, l with
  | b :: mask', a :: l' => if b then a :: select mask' l' else select mask' l'
  | _, _ => []
  end.

(** [df.drop(label, axis=1)]: every column carrying [label] goes. *)
Definition drop_column (label : string) (df : Frame) : Frame :=
  let keep := map (fun c => bool_decide (c <> label)) (columns df) in
  {| columns := select keep (columns df); rows := map (select keep) (rows df) |}.

(** [df[label]]: the column as a list of cells, [KeyError] if there is none. *)
Definition get_column (label : string) (df : Frame) : result (list Cell) :=
  match index label (columns df) with
  | None => Raise (KeyError label)
  | Some i => Ok (map (fun row => default CNaT (row !! i)) (rows df))
  end.

Fixpoint zip_with_cells (f : list Cell -> Cell -> list Cell)
    (rs : list (list Cell)) (cs : list Cell) : list (list Cell) :=
  match rs, cs with
  | r :: rs', c :: cs' => f r c :: zip_with_cells f rs' cs'
  | _, _ => []
  end.

(** [df[label] = values]: overwrites the column in place when the label
    exists, appends a new last column otherwise. [values] always comes from
    a column of the same frame here, so the lengths agree. *)
Definition set_column (label : string) (values : list Cell) (df : Frame) : Frame :=
  match index label (columns df) with
  | Some i =>
      {| columns := columns df;
         rows := zip_with_cells (fun r c => <[i := c]> r) (rows df) values |}
  | None =>
      {| columns := columns df ++ [label];
         rows := zip_with_cells (fun r c => r ++ [c]) (rows df) values |}
  end.

Section Pandas.

(** [pd.to_datetime] on a cell that is not a timestamp yet (text, a number):
    the parser of pandas, [None] where it raises. *)
Variable parse_datetime : Cell -> option Timestamp.

Definition to_datetime_cell (c : Cell) : result Cell :=
  match c with
  | CTime t => Ok (CTime t)
  | CNaT => Ok CNaT
  | CFloat x =>
      if PrimFloat.is_nan x then Ok CNaT
      else match parse_datetime c with
           | Some t => Ok (CTime t)
           | None => Raise ValueError
           end
  | _ => match parse_datetime c with
         | Some t => Ok (CTime t)
         | None => Raise ValueError
         end
  end.

(** [pd.to_datetime(series)] *)
Definition to_datetime (s : list Cell) : result (list Cell) :=
  map_result to_datetime_cell s.

(** [series.dt.year]; the year of [NaT] is NaN. (Beside a [NaT] pandas
    makes the whole column [float64]; a year is kept as the integer here,
    the same number.) *)
Definition dt_year (s : list Cell) : list Cell :=
  map (fun c => match c with CTime t => CInt (ts_year t) | _ => CFloat nan end) s.

(** ** [load_data] (lines 101-121) *)

(** What a call leaves behind: the [st.error] boxes it showed, and the value
    it returned ([None] is Python's [None]). *)
Record Loaded := { shown : list string; returned : option Frame }.

Definition file_not_found_message : string :=
  "Excel file not found. Please ensure 'lifecycledata.xlsx' is in the same directory.".

(** [file] is what [pd.read_excel('lifecycledata.xlsx')] finds: [None] when
    the file is absent ([FileNotFoundError], the one exception caught).
    [st.cache_data] replays the result of the first call on later runs. *)
Definition load_data (file : option Frame) : result Loaded :=
  match file with
  | None => Ok {| shown := [file_not_found_message]; returned := None |}
  | Some df =>
      match columns df with
      | [] => Raise IndexError
      | first :: _ =>
          let df := drop_column first df in
          let* start := get_column "Start Date" df in
          let* start := to_datetime start in
          let df := set_column "Start Date" start df in
          let* stop := get_column "End Date" df in
          let* stop := to_datetime stop in
          let df := set_column "End Date" stop df in
          let* start := get_column "Start Date" df in
          let df := set_column "Start Year" (dt_year start) df in
          let* stop := get_column "End Date" df in
          let df := set_column "End Year" (dt_year stop) df in
          Ok {| shown := []; returned := Some df |}
      end
  end.

End Pandas.

(** ** The rows [main] reads *)

(** One row of [df] as lines 144-311 read it: the four columns they use, by
    label. ([Device Name] and the two dates are read by the timeline and the
    detail cards only, lines 313-411.) The reasons are only counted for the
    sidebar chart and are kept as the frame has them. *)
Record Device := {
  brand : string;
  device_category : string;
  duration : float;
  reason : Cell
}.

Definition as_str (c : Cell) : result string :=
  match c with CStr s => Ok s | _ => Raise TypeError end.

(** [float(n)] for a Python [int] or numpy [int64]: the nearest binary64. *)
Definition float_of_Z (n : Z) : float :=
  SF2Prim (binary_normalize prec emax n 0 false).

(** A cell of a numeric column, as the comparisons and [float()] read it. *)
Definition as_float (c : Cell) : result float :=
  match c with
  | CFloat x => Ok x
  | CInt n => Ok (float_of_Z n)
  | _ => Raise TypeError
  end.

Fixpoint zip_devices (bs cs : list string) (ds : list float) (rs : list Cell)
    : list Device :=
  match bs, cs, ds, rs with
  | b :: bs', c :: cs', d :: ds', r :: rs' =>
      {| brand := b; device_category := c; duration := d; reason := r |}
        :: zip_devices bs' cs' ds' rs'
  | _, _, _, _ => []
  end.

(** The rows of a frame that has the four columns, with text in [Brand] and
    [Device Category] and numbers in [Duration]. On a frame that lacks one of
    them [main] raises [KeyError] at its first use, which in a new session is
    in the order below; a blank cell among texts in [Brand] or
    [Device Category] makes [sorted] raise [TypeError], text in [Duration]
    makes the comparisons raise it. (A [Brand] or [Device Category] column
    made of numbers only, which Python would sort and render, is refused
    here as well: the records of this development carry text.) *)
Definition devices (df : Frame) : result (list Device) :=
  let* ds := bind (get_column "Duration" df) (map_result as_float) in
  let* bs := bind (get_column "Brand" df) (map_result as_str) in
  let* cs := bind (get_column "Device Category" df) (map_result as_str) in
  let* rs := get_column "Reason for Discontinuing" df in
  Ok (zip_devices bs cs ds rs).

(** ** Series: [unique], [sorted], [min], [max], [mean], [nunique] *)

(** [series.unique()]: the values in order of first appearance. *)
Fixpoint unique (l : list string) : list string :=
  match l with
  | [] => []
  | x :: l' => x :: filter (fun y => y <> x) (unique l')
  end.

(** [series.nunique()] *)
Definition nunique (l : list string) : nat := length (unique l).

Definition str_le (a b : string) : Prop := String.leb a b = true.

#[local] Instance str_le_dec a b : Decision (str_le a b).
Proof. unfold str_le. apply _. Defined.

(** [sorted(l)] on strings *)
Definition sorted (l : list string) : list string := merge_sort str_le l.

Definition not_nan (x : float) : Prop := PrimFloat.is_nan x = false.

#[local] Instance not_nan_dec x : Decision (not_nan x).
Proof. unfold not_nan. apply _. Defined.

(** [series.min()]: NaN cells are skipped; NaN when nothing is left. *)
Definition series_min (xs : list float) : float :=
  match filter not_nan xs with
  | [] => nan
  | x :: rest => foldl (fun m y => if (y <? m)%float then y else m) x rest
  end.

(** [series.max()] *)
Definition series_max (xs : list float) : float :=
  match filter not_nan xs with
  | [] => nan
  | x :: rest => foldl (fun m y => if (m <? y)%float then y else m) x rest
  end.

Definition float_of_nat (n : nat) : float := float_of_Z (Z.of_nat n).

(** [series.mean()]: the sum of the cells that are not NaN over their number,
    summed left to right. (numpy adds pairwise from 8 cells on, which can
    move the last bit of the mean of a longer view; nothing below rests on
    the value of such a mean.) *)
Definition series_mean (xs : list float) : float :=
  let ys := filter not_nan xs in
  (foldl PrimFloat.add 0%float ys / float_of_nat (length ys))%float.

(** ** Session state (lines 93-99) and the widget store *)

Record SessionState := {
  selected_category : option string;      (* [None] is Python's [None] *)
  selected_brand : string;
  duration_range : option (float * float); (* [None] until [main] sets it *)
  from_treemap : bool                      (* is [_from_treemap] an attribute? *)
}.

Definition with_category (c : option string) (ss : SessionState) : SessionState :=
  {| selected_category := c; selected_brand := selected_brand ss;
     duration_range := duration_range ss; from_treemap := from_treemap ss |}.

Definition with_brand (b : string) (ss : SessionState) : SessionState :=
  {| selected_category := selected_category ss; selected_brand := b;
     duration_range := duration_range ss; from_treemap := from_treemap ss |}.

Definition with_range (r : option (float * float)) (ss : SessionState) : SessionState :=
  {| selected_category := selected_category ss; selected_brand := selected_brand ss;
     duration_range := r; from_treemap := from_treemap ss |}.

(** The state the three [if ... not in st.session_state] leave in a new
    session. Nothing in the script ever creates [_from_treemap]. *)
Definition new_session : SessionState :=
  {| selected_category := None; selected_brand := "All Brands";
     duration_range := None; from_treemap := false |}.

(** Lines 93-99. The three keys are created together and never deleted, so
    a session has all of them ([Some]) or none ([None]). *)
Definition init_session_state (stored : option SessionState) : SessionState :=
  default new_session stored.

(** What Streamlit's widget store gives back for this run, by widget key.
    For the two select boxes and the slider: the value the widget holds from
    the user's choice or from an earlier render, [None] when it holds none (a
    first render, or a widget Streamlit has reset). For the button: whether it
    was clicked. Which of the two a session meets is up to Streamlit and the
    user; the script is modelled for both. *)
Record Widgets := {
  brand_selectbox : option string;
  category_selectbox : option string;
  duration_slider : option (float * float);
  clear_button : bool
}.

(** [st.selectbox(label, options, index=i, key=k)]: the value the widget
    holds; [index] preselects an option only when it holds none. *)
Definition selectbox (options : list string) (i : nat) (held : option string) : string :=
  match held with
  | Some v => v
  | None => default "" (options !! i)
  end.

(** [st.slider(label, lo, hi, value, step=0.1, key=k)], the bounds left
    aside: the pair the widget holds, [value] when it holds none. What the
    bounds add (a pair outside them is not handed back, some calls raise) is
    in [bounded_slider]. *)
Definition slider (value : float * float) (held : option (float * float)) : float * float :=
  default value held.

(** ** [main] (lines 138-311) *)

(** [(float(df['Duration'].min()), float(df['Duration'].max()))] *)
Definition observed_range (df : list Device) : float * float :=
  (series_min (map duration df), series_max (map duration df)).

(** Lines 144-146 *)
Definition init_duration_range (df : list Device) (ss : SessionState) : SessionState :=
  match duration_range ss with
  | None => with_range (Some (observed_range df)) ss
  | Some _ => ss
  end.

(** Line 185 *)
Definition all_brands (df : list Device) : list string :=
  "All Brands" :: sorted (unique (map brand df)).

(** Line 189: [all_brands.index(b) if b in all_brands else 0] *)
Definition brand_index (df : list Device) (ss : SessionState) : nat :=
  default 0 (index (selected_brand ss) (all_brands df)).

(** Line 192 *)
Definition set_brand (selected : string) (ss : SessionState) : SessionState :=
  with_brand selected ss.

(** Lines 184-192 *)
Definition brand_section (df : list Device) (held : option string) (ss : SessionState)
    : SessionState :=
  set_brand (selectbox (all_brands df) (brand_index df ss) held) ss.

(** Line 195 *)
Definition all_categories (df : list Device) : list string :=
  "All Categories" :: sorted (unique (map device_category df)).

(** Lines 197-202. The empty string is falsy; under the first test
    [all_categories.index] finds the category, so its [ValueError] (the
    [default]) is never met. *)
Definition default_category_index (df : list Device) (ss : SessionState) : nat :=
  match selected_category ss with
  | Some c =>
      if bool_decide (c <> "") && bool_decide (c ∈ unique (map device_category df))
      then default 0 (index c (all_categories df))
      else 0
  | None => 0
  end.

(** Lines 211-214 *)
Definition set_category (selected : string) (ss : SessionState) : SessionState :=
  if bool_decide (selected <> "All Categories") then with_category (Some selected) ss
  else if negb (from_treemap ss) then with_category None ss
  else ss.

(** Lines 194-214 *)
Definition category_section (df : list Device) (held : option string) (ss : SessionState)
    : SessionState :=
  set_category (selectbox (all_categories df) (default_category_index df ss) held) ss.

(** Line 225 *)
Definition set_duration_range (r : float * float) (ss : SessionState) : SessionState :=
  with_range (Some r) ss.

(** Lines 216-225, what they write: the pair [slider] hands back, into
    [duration_range] and nowhere else. The slider's [value] is
    [st.session_state.duration_range], a pair since line 146. (With [None]
    the slider would hand back a single number and line 241 would raise, as
    [apply_filters] does on [None].) [bounded_duration_section] is the same
    block with the bounds of line 217. *)
Definition duration_section (held : option (float * float)) (ss : SessionState)
    : SessionState :=
  match duration_range ss with
  | Some value => set_duration_range (slider value held) ss
  | None => ss
  end.

(** [min_value <= x <= max_value] *)
Definition within_bounds (min_value max_value x : float) : bool :=
  (min_value <=? x)%float && (x <=? max_value)%float.

(** The calls of [st.slider] that draw a range slider: [min_value] below
    [max_value], and both ends of [value] between them. Streamlit raises on
    the others. *)
Definition slider_is_drawn (min_value max_value : float) (value : float * float)
    : bool :=
  (min_value <? max_value)%float
  && within_bounds min_value max_value value.1
  && within_bounds min_value max_value value.2.

(** [st.slider(label, min_value, max_value, value, step=0.1, key=k)] with
    its bounds; [None] where the call raises. A pair the widget holds is
    handed back when both its ends lie within the bounds, whichever end is
    the larger; a pair with an end outside them is not, and the slider
    hands back [value]. *)
Definition bounded_slider (min_value max_value : float) (value : float * float)
    (held : option (float * float)) : option (float * float) :=
  if slider_is_drawn min_value max_value value then
    match held with
    | Some p =>
        if within_bounds min_value max_value p.1
           && within_bounds min_value max_value p.2
        then Some p
        else Some value
    | None => Some value
    end
  else None.

(** Lines 216-225 with the bounds of line 217. [None] when line 218 raises:
    line 225 is not reached and the session state is the one before the
    block. (The range is a pair since line 146; a state without one gets no
    slider here.) *)
Definition bounded_duration_section (df : list Device)
    (held : option (float * float)) (ss : SessionState) : option SessionState :=
  let min_duration := series_min (map duration df) in
  let max_duration := series_max (map duration df) in
  match duration_range ss with
  | Some value =>
      match bounded_slider min_duration max_duration value held with
      | Some r => Some (set_duration_range r ss)
      | None => None
      end
  | None => None
  end.

(** Lines 229-231 *)
Definition clear_all (df : list Device) (ss : SessionState) : SessionState :=
  with_range (Some (observed_range df))
    (with_brand "All Brands" (with_category None ss)).

(** Lines 234-243 *)
Definition apply_filters (df : list Device) (ss : SessionState) : result (list Device) :=
  let filtered_df := df in
  let filtered_df :=
    if bool_decide (selected_brand ss <> "All Brands")
    then filter (fun r => brand r = selected_brand ss) filtered_df
    else filtered_df in
  let filtered_df :=
    match selected_category ss with
    | Some c =>
        if bool_decide (c <> "All Categories")
        then filter (fun r => device_category r = c) filtered_df
        else filtered_df
    | None => filtered_df
    end in
  match duration_range ss with
  | Some (lo, hi) =>
      Ok (filter (fun r => (lo <=? duration r)%float && (duration r <=? hi)%float)
                 filtered_df)
  | None => Raise TypeError
  end.

(** Lines 279-311: the four key metrics *)
Record Metrics := {
  total_devices : nat;
  avg_duration : float;
  unique_brands : nat;
  unique_categories : nat
}.

Definition key_metrics (filtered_df : list Device) : Metrics :=
  {| total_devices := length filtered_df;
     avg_duration := series_mean (map duration filtered_df);
     unique_brands := nunique (map brand filtered_df);
     unique_categories := nunique (map device_category filtered_df) |}.

(** How one run of [main] ends, with the session state it leaves. *)
Inductive Outcome :=
| Stopped (errors : list string) (ss : SessionState)   (* line 142 *)
| Rerun (ss : SessionState)                            (* line 232 *)
| NoMatch (ss : SessionState)                          (* lines 275-277 *)
| Rendered (ss : SessionState) (filtered_df : list Device) (m : Metrics)
| Raised (e : exn).

(** [main] from line 144 to line 311, [df] loaded: the selection state the
    sidebar leaves, the view, and the four metrics. Three things the program
    does on the way are left out, each of which can end a run with an
    exception where this function answers [Rerun], [NoMatch] or [Rendered]:
    - the bounds of the slider (line 218 raises where
      [bounded_duration_section] is [None], as when every duration is the
      same);
    - the reasons chart of lines 245-272, drawn from the view before line 275
      looks whether the view is empty: [px.bar] raises [ValueError] when no
      reason is left to count, so on an empty view the program raises at line
      249 and never shows the warning of [NoMatch];
    - the timeline and the cards after line 311 (lines 355 and 368 raise on a
      blank date or name).
    A page the program renders, its slider holding nothing or a pair within
    the bounds, is the page of [Rendered]; statements about runs below are
    therefore made of a run that is [Rendered]. *)
Definition dashboard (df : list Device) (ss : SessionState) (ui : Widgets) : Outcome :=
  let ss := init_duration_range df ss in
  let ss := brand_section df (brand_selectbox ui) ss in
  let ss := category_section df (category_selectbox ui) ss in
  let ss := duration_section (duration_slider ui) ss in
  if clear_button ui then Rerun (clear_all df ss)
  else
    match apply_filters df ss with
    | Raise e => Raised e
    | Ok filtered_df =>
        if bool_decide (length filtered_df = 0) then NoMatch ss
        else Rendered ss filtered_df (key_metrics filtered_df)
    end.

Section Script.

Variable parse_datetime : Cell -> option Timestamp.

Definition main (file : option Frame) (ss : SessionState) (ui : Widgets) : Outcome :=
  match load_data parse_datetime file with
  | Raise e => Raised e
  | Ok loaded =>
      match returned loaded with
      | None => Stopped (shown loaded) ss
      | Some frame =>
          match devices frame with
          | Raise e => Raised e
          | Ok df => dashboard df ss ui
          end
      end
  end.

(** One run of the script: lines 93-99, then [main()]. *)
Definition script (file : option Frame) (stored : option SessionState) (ui : Widgets)
    : Outcome :=
  main file (init_session_state stored) ui.

End Script.

(** What lines 234-243 keep, read off the code: the three tests as the code
    makes them. *)
Definition kept (ss : SessionState) (lo hi : float) (r : Device) : Prop :=
  (selected_brand ss = "All Brands" \/ brand r = selected_brand ss) /\
  match selected_category ss with
  | Some c => c = "All Categories" \/ device_category r = c
  | None => True
  end /\
  (lo <=? duration r)%float = true /\ (duration r <=? hi)%float = true.

(** ** The spec's names for the operations *)

(** The filter predicate as the spec words it, over the session state:
    brand is "all" or equal, category is unset or equal, duration within
    the closed range. *)
Definition satisfies (ss : SessionState) (r : Device) : Prop :=
  (selected_brand ss = "All Brands" \/ brand r = selected_brand ss) /\
  (selected_category ss = None \/ selected_category ss = Some (device_category r)) /\
  (exists lo hi, duration_range ss = Some (lo, hi) /\
     (lo <=? duration r)%float = true /\ (duration r <=? hi)%float = true).

(** The default selection state: all brands, no category, the full observed
    range (the state of a new session once line 146 has run). *)
Definition default_state (df : list Device) : SessionState :=
  init_duration_range df new_session.

(** Modelled from the spec: [selectFromChart(category)], "sets categoryFilter
    to the clicked category". The script has no chart click handler; only the
    comments of lines 93 and 194 and the test of [_from_treemap] on line 213
    speak of one. *)
Definition select_from_chart (c : string) (ss : SessionState) : SessionState :=
  with_category (Some c) ss.

(** [getState()]: the three fields of the selection state. *)
Definition get_state (ss : SessionState)
    : string * option string * option (float * float) :=
  (selected_brand ss, selected_category ss, duration_range ss).

(** A selection state the filter block can run on: the range is a pair, and
    the category is [None] or a category, never the dropdown's sentinel
    (line 212 never stores it). *)
Definition valid_state (ss : SessionState) : Prop :=
  is_Some (duration_range ss) /\ selected_category ss <> Some "All Categories".

(** A frame is rectangular when every row has one cell per label. *)
Definition rectangular (df : Frame) : Prop :=
  Forall (fun row => length row = length (columns df)) (rows df).

(** A cell [pd.to_datetime] leaves: a timestamp or [NaT]. *)
Definition is_time (c : Cell) : Prop :=
  match c with CTime _ | CNaT => True | _ => False end.

(** ** Sample data *)

(** A record given by brand, category and duration, as the spec's example
    writes them; the reason plays no part in filtering or the metrics. *)
Definition device (b c : string) (d : float) : Device :=
  {| brand := b; device_category := c; duration := d; reason := CStr "" |}.

Definition two_devices : list Device :=
  [device "A" "Phone" 2.0%float; device "B" "Tablet" 5.0%float].

Definition phones : list Device :=
  [device "Apple" "Smartphones" 3.0%float; device "Nest" "Smart Home" 1.5%float].

(** The two devices and a third whose [Duration] cell is blank. *)
Definition with_blank_duration : list Device :=
  two_devices ++ [device "C" "Watch" nan].



Definition no_widget_state : Widgets :=
  {| brand_selectbox := None; category_selectbox := None;
     duration_slider := None; clear_button := false |}.

(** A spreadsheet with every column but [Duration]. *)
Definition sheet_without_duration : Frame :=
  {| columns := ["Unnamed: 0"; "Device Name"; "Brand"; "Device Category";
                 "Start Date"; "End Date"; "Reason for Discontinuing"];
     rows := [[CInt 0; CStr "Revolv Hub"; CStr "Nest"; CStr "Smart Home";
               CTime {| ts_year := 2014; ts_month := 10; ts_day := 1 |};
               CTime {| ts_year := 2016; ts_month := 5; ts_day := 15 |};
               CStr "Server shutdown"]] |}.

(** The same spreadsheet with a [Duration] column whose cell is blank. *)
Definition sheet_with_blank_duration : Frame :=
  {| columns := ["Unnamed: 0"; "Device Name"; "Brand"; "Device Category";
                 "Start Date"; "End Date"; "Duration"; "Reason for Discontinuing"];
     rows := [[CInt 0; CStr "Revolv Hub"; CStr "Nest"; CStr "Smart Home";
               CTime {| ts_year := 2014; ts_month := 10; ts_day := 1 |};
               CTime {| ts_year := 2016; ts_month := 5; ts_day := 15 |};
               CFloat nan; CStr "Server shutdown"]] |}.

(** A spreadsheet of two devices, dates as text. *)
Definition sheet_of_two : Frame :=
  {| columns := ["Unnamed: 0"; "Device Name"; "Brand"; "Device Category";
                 "Start Date"; "End Date"; "Duration"; "Reason for Discontinuing"];
     rows := [[CInt 0; CStr "Revolv Hub"; CStr "Nest"; CStr "Smart Home";
               CStr "2014-10-01"; CStr "2016-05-15"; CFloat 1.5;
               CStr "Server shutdown"];
              [CInt 1; CStr "iPhone 5"; CStr "Apple"; CStr "Smartphones";
               CStr "2012-09-21"; CStr "2015-09-21"; CInt 3;
               CStr "End of software support"]] |}.

(** A parser for the four dates of [sheet_of_two]. *)
Definition parse_sample (c : Cell) : option Timestamp :=
  match c with
  | CStr "2014-10-01" => Some {| ts_year := 2014; ts_month := 10; ts_day := 1 |}
  | CStr "2016-05-15" => Some {| ts_year := 2016; ts_month := 5; ts_day := 15 |}
  | CStr "2012-09-21" => Some {| ts_year := 2012; ts_month := 9; ts_day := 21 |}
  | CStr "2015-09-21" => Some {| ts_year := 2015; ts_month := 9; ts_day := 21 |}
  | _ => None
  end.

(** A parser that accepts nothing: enough for sheets whose dates are
    timestamps already. *)
Definition no_parsing (c : Cell) : option Timestamp := None.

(** ** More of [main]: the state after the sidebar, the timeline *)

(** The three tests of the filter block are decidable. *)
#[local] Instance kept_dec ss lo hi r : Decision (kept ss lo hi r).
Proof. unfold kept. destruct (selected_category ss); apply _. Defined.

(** The session state once the sidebar has run (line 226). *)
Definition after_sidebar (df : list Device) (ui : Widgets) (ss : SessionState)
    : SessionState :=
  duration_section (duration_slider ui)
    (category_section df (category_selectbox ui)
       (brand_section df (brand_selectbox ui) (init_duration_range df ss))).

(** The option a select box shows when it holds no value and is handed the
    index of [x], or 0 when [x] is not an option. *)
Definition preselected (options : list string) (x : string) : string :=
  selectbox options (default 0 (index x options)) None.

(** One trace of the timeline figure (lines 342-360), without its two dates
    and its hover text. (The hover text calls [strftime] on both dates: the
    traces are those of rows whose dates are timestamps.) *)
Record Trace := {
  trace_name : string;
  legendgroup : string;
  showlegend : bool;
  trace_y : nat
}.

(** Lines 341-360: one trace per row of [timeline_df], appended to
    [fig_timeline.data]; [idx] is the row's position. *)
Fixpoint add_traces (data : list Trace) (idx : nat) (categories : list string)
    : list Trace :=
  match categories with
  | [] => data
  | c :: rest =>
      add_traces
        (data ++ [{| trace_name := c; legendgroup := c;
                     showlegend := bool_decide (c ∉ map trace_name data);
                     trace_y := idx |}])
        (S idx) rest
  end.

(** The traces of the timeline of a view. *)
Definition timeline_traces (filtered_df : list Device) : list Trace :=
  add_traces [] 0 (map device_category filtered_df).

(** Text is held as its UTF-8 bytes; a byte 10xxxxxx continues a character. *)
Definition continues_char (b : Ascii.ascii) : bool :=
  (128 <=? Ascii.N_of_ascii b)%N && (Ascii.N_of_ascii b <? 192)%N.

(** [len(s)]: the number of characters. *)
Fixpoint py_len (s : string) : nat :=
  match s with
  | EmptyString => 0
  | String b s' => if continues_char b then py_len s' else S (py_len s')
  end.

(** [s[:n]]: the first [n] characters. *)
Fixpoint py_take (n : nat) (s : string) : string :=
  match s with
  | EmptyString => EmptyString
  | String b s' =>
      if continues_char b then String b (py_take n s')
      else match n with
           | 0 => EmptyString
           | S n' => String b (py_take n' s')
           end
  end.

(** Lines 368-369: the tick label of a row; [len] raises on a name that is
    not text. *)
Definition tick_text (name : Cell) : result string :=
  match name with
  | CStr s =>
      Ok (if (30 <? py_len s)%nat then String.append (py_take 30 s) "..." else s)
  | _ => Raise TypeError
  end.

(** * Properties *)

(** ** The order of binary64 numbers *)

Lemma SFcompare_refl x : x <> S754_nan -> SFcompare x x = Some Eq.
Proof.
  destruct x as [s|s| |s m e]; intros H; try done; simpl.
  - by destruct s.
  - rewrite Z.compare_refl. fold (Pos.compare m m).
    rewrite Pos.compare_refl. by destruct s.
Qed.

Lemma SFcompare_antisym x y : SFcompare y x = CompOpp <$> SFcompare x y.
Proof.
  destruct x as [sx|sx| |sx mx ex], y as [sy|sy| |sy my ey]; simpl; try done;
    try (by destruct sx); try (by destruct sy); try (by destruct sx, sy).
  fold (Pos.compare mx my) (Pos.compare my mx).
  rewrite (Z.compare_antisym ex ey), (Pos.compare_antisym mx my).
  destruct sx, sy; simpl; try done;
    destruct (ex ?= ey)%Z; simpl; try done; by destruct (mx ?= my)%positive.
Qed.

Lemma SFleb_trans x y z :
  SFleb x y = true -> SFleb y z = true -> SFleb x z = true.
Proof.
  unfold SFleb.
  destruct x as [sx|sx| |sx mx ex], y as [sy|sy| |sy my ey], z as [sz|sz| |sz mz ez];
    simpl; try done;
    try (by destruct sx); try (by destruct sy); try (by destruct sz);
    try (by destruct sx, sy); try (by destruct sy, sz); try (by destruct sx, sz);
    try (by destruct sx, sy, sz).
  fold (Pos.compare mx my) (Pos.compare my mz) (Pos.compare mx mz).
  destruct sx, sy, sz; simpl; try done;
    destruct (Z.compare_spec ex ey), (Z.compare_spec ey ez), (Z.compare_spec ex ez);
    simpl; try done; try lia; subst;
    destruct (Pos.compare_spec mx my), (Pos.compare_spec my mz),
      (Pos.compare_spec mx mz);
    simpl; try done; try lia.
Qed.

Lemma not_nan_spec x : not_nan x <-> Prim2SF x <> S754_nan.
Proof.
  unfold not_nan, PrimFloat.is_nan. rewrite FloatAxioms.eqb_spec. unfold SFeqb. split.
  - intros H E. rewrite E in H. done.
  - intros H. by rewrite SFcompare_refl.
Qed.

Lemma leb_refl x : not_nan x -> (x <=? x)%float = true.
Proof.
  intros H%not_nan_spec. rewrite FloatAxioms.leb_spec. unfold SFleb.
  by rewrite SFcompare_refl.
Qed.

Lemma leb_trans x y z :
  (x <=? y)%float = true -> (y <=? z)%float = true -> (x <=? z)%float = true.
Proof. rewrite !FloatAxioms.leb_spec. apply SFleb_trans. Qed.

Lemma ltb_leb x y : (x <? y)%float = true -> (x <=? y)%float = true.
Proof.
  rewrite FloatAxioms.ltb_spec, FloatAxioms.leb_spec. unfold SFltb, SFleb.
  by destruct (SFcompare _ _) as [[]|].
Qed.

Lemma not_ltb_leb x y :
  not_nan x -> not_nan y -> (x <? y)%float = false -> (y <=? x)%float = true.
Proof.
  intros Hx%not_nan_spec Hy%not_nan_spec.
  rewrite FloatAxioms.ltb_spec, FloatAxioms.leb_spec.
  unfold SFltb, SFleb. rewrite (SFcompare_antisym (Prim2SF x) (Prim2SF y)).
  assert (is_Some (SFcompare (Prim2SF x) (Prim2SF y))) as [c Hc].
  { destruct (Prim2SF x), (Prim2SF y); done. }
  rewrite Hc. by destruct c.
Qed.

Lemma leb_not_nan x y : (x <=? y)%float = true -> not_nan x /\ not_nan y.
Proof.
  rewrite FloatAxioms.leb_spec, !not_nan_spec. unfold SFleb.
  destruct (Prim2SF x), (Prim2SF y); done.
Qed.

(** ** [min] and [max] bound every number of the series *)

Lemma foldl_min_bound rest : forall x,
  not_nan x -> Forall not_nan rest ->
  let m := foldl (fun m y => if (y <? m)%float then y else m) x rest in
  not_nan m /\ (m <=? x)%float = true /\
  forall y, y ∈ rest -> (m <=? y)%float = true.
Proof.
  induction rest as [|y rest IH]; intros x Hx Hrest; simpl.
  - split; [done|]. split; [by apply leb_refl|]. intros y Hy. by inversion Hy.
  - inversion Hrest as [|? ? Hy Hrest']; subst.
    destruct (y <? x)%float eqn:Hlt.
    + destruct (IH y Hy Hrest') as (Hm & Hmy & Hall). split; [done|].
      split; [by eapply leb_trans, ltb_leb|].
      intros z [->|Hz]%elem_of_cons; auto.
    + destruct (IH x Hx Hrest') as (Hm & Hmx & Hall). split; [done|].
      split; [done|].
      intros z [->|Hz]%elem_of_cons; auto.
      eapply leb_trans; [exact Hmx|]. by apply not_ltb_leb.
Qed.

Lemma foldl_max_bound rest : forall x,
  not_nan x -> Forall not_nan rest ->
  let m := foldl (fun m y => if (m <? y)%float then y else m) x rest in
  not_nan m /\ (x <=? m)%float = true /\
  forall y, y ∈ rest -> (y <=? m)%float = true.
Proof.
  induction rest as [|y rest IH]; intros x Hx Hrest; simpl.
  - split; [done|]. split; [by apply leb_refl|]. intros y Hy. by inversion Hy.
  - inversion Hrest as [|? ? Hy Hrest']; subst.
    destruct (x <? y)%float eqn:Hlt.
    + destruct (IH y Hy Hrest') as (Hm & Hmy & Hall). split; [done|].
      split; [eapply leb_trans; [by apply ltb_leb|done]|].
      intros z [->|Hz]%elem_of_cons; auto.
    + destruct (IH x Hx Hrest') as (Hm & Hmx & Hall). split; [done|].
      split; [done|].
      intros z [->|Hz]%elem_of_cons; auto.
      eapply leb_trans; [|exact Hmx]. by apply not_ltb_leb.
Qed.

Lemma series_min_le xs x :
  x ∈ xs -> not_nan x -> (series_min xs <=? x)%float = true.
Proof.
  intros Hin Hx. unfold series_min.
  assert (x ∈ filter not_nan xs) as Hf by (by apply list_elem_of_filter).
  assert (Forall not_nan (filter not_nan xs)) as Hall.
  { apply Forall_forall. by intros y [? _]%list_elem_of_filter. }
  destruct (filter not_nan xs) as [|y rest]; [by inversion Hf|].
  inversion Hall as [|? ? Hy Hrest]; subst.
  destruct (foldl_min_bound rest y Hy Hrest) as (_ & Hmy & Hrest').
  apply elem_of_cons in Hf as [->|Hf]; auto.
Qed.

Lemma series_max_ge xs x :
  x ∈ xs -> not_nan x -> (x <=? series_max xs)%float = true.
Proof.
  intros Hin Hx. unfold series_max.
  assert (x ∈ filter not_nan xs) as Hf by (by apply list_elem_of_filter).
  assert (Forall not_nan (filter not_nan xs)) as Hall.
  { apply Forall_forall. by intros y [? _]%list_elem_of_filter. }
  destruct (filter not_nan xs) as [|y rest]; [by inversion Hf|].
  inversion Hall as [|? ? Hy Hrest]; subst.
  destruct (foldl_max_bound rest y Hy Hrest) as (_ & Hmy & Hrest').
  apply elem_of_cons in Hf as [->|Hf]; auto.
Qed.

(** ** The filter block *)

Lemma apply_filters_spec df ss lo hi :
  duration_range ss = Some (lo, hi) ->
  exists out, apply_filters df ss = Ok out /\
    out `sublist_of` df /\
    forall r, r ∈ out <-> r ∈ df /\ kept ss lo hi r.
Proof.
  intros Hrange. unfold apply_filters. rewrite Hrange.
  eexists. split; [reflexivity|]. split.
  - etrans; [apply sublist_filter|].
    etrans; [|instantiate (1 := if bool_decide (selected_brand ss <> "All Brands")
                 then filter (fun r => brand r = selected_brand ss) df else df);
              case_bool_decide; [apply sublist_filter|done]].
    destruct (selected_category ss) as [c|]; [|done].
    case_bool_decide; [apply sublist_filter|done].
  - intros r. rewrite list_elem_of_filter, andb_True, !Is_true_true.
    unfold kept.
    destruct (selected_category ss) as [c|];
      repeat case_bool_decide; rewrite ?list_elem_of_filter;
      intuition (subst; auto; congruence).
Qed.

Lemma kept_satisfies ss lo hi r :
  duration_range ss = Some (lo, hi) ->
  selected_category ss <> Some "All Categories" ->
  kept ss lo hi r <-> satisfies ss r.
Proof.
  intros Hrange Hcat. unfold kept, satisfies. rewrite Hrange.
  destruct (selected_category ss) as [c|]; split.
  - intros (Hb & [->|<-] & Hlo & Hhi); [done|]. eauto 10.
  - intros (Hb & [?|[= ->]] & lo' & hi' & [= <- <-] & Hlo & Hhi); [done|]. auto.
  - intros (Hb & _ & Hlo & Hhi). eauto 10.
  - intros (Hb & _ & lo' & hi' & [= <- <-] & Hlo & Hhi). auto.
Qed.

(** C1. For every dataset and every valid selection state, the filter block
    returns a view; every record of the view is a record of the dataset that
    satisfies the three conjunctive predicates (brand is "All Brands" or
    equal, category is unset or equal, lo <= duration <= hi), and every record
    of the dataset that is not in the view violates at least one of them. *)
Theorem apply_filters_sound_and_complete (df : list Device) (ss : SessionState) :
  valid_state ss ->
  exists out, apply_filters df ss = Ok out /\
    (forall r, r ∈ out -> r ∈ df /\ satisfies ss r) /\
    (forall r, r ∈ df -> r ∉ out -> ~ satisfies ss r).
Proof.
  intros [[[lo hi] Hrange] Hcat].
  destruct (apply_filters_spec df ss lo hi Hrange) as (out & Hout & _ & Hin).
  exists out. split; [done|]. split.
  - intros r Hr. apply Hin in Hr as [? ?]. split; [done|]. by apply (kept_satisfies ss lo hi).
  - intros r Hr Hnot Hsat. apply Hnot, Hin. split; [done|].
    by apply (kept_satisfies ss lo hi).
Qed.

Lemma apply_filters_sound_and_complete_witness :
  valid_state (with_brand "A" (default_state two_devices)) /\
  exists out, apply_filters two_devices (with_brand "A" (default_state two_devices)) = Ok out /\
    (forall r, r ∈ out ->
       r ∈ two_devices /\ satisfies (with_brand "A" (default_state two_devices)) r) /\
    (forall r, r ∈ two_devices -> r ∉ out ->
       ~ satisfies (with_brand "A" (default_state two_devices)) r).
Proof.
  assert (valid_state (with_brand "A" (default_state two_devices))) as Hvalid.
  { split; [by eexists|done]. }
  split; [exact Hvalid|].
  exact (apply_filters_sound_and_complete two_devices _ Hvalid).
Defined.

(** With the dropdown's sentinel stored as the category, the filter block
    puts no constraint on the category, as with [None]. *)
Lemma apply_filters_sentinel df ss :
  selected_category ss = Some "All Categories" ->
  apply_filters df ss = apply_filters df (with_category None ss).
Proof. intros H. unfold apply_filters. rewrite H. simpl. by case_bool_decide. Qed.

(** C10. The filtered view is an order-preserving subsequence of the dataset:
    for every dataset and every selection state whose range is set, the filter
    block returns a view that is a sublist of the dataset, so it holds no
    record that is not in the dataset, holds no record more often than the
    dataset does, and keeps the records in the order of the dataset. *)
Theorem apply_filters_sublist (df : list Device) (ss : SessionState) :
  is_Some (duration_range ss) ->
  exists out, apply_filters df ss = Ok out /\
    out `sublist_of` df /\
    (forall r, r ∈ out -> r ∈ df) /\
    (NoDup df -> NoDup out) /\
    length out <= length df.
Proof.
  intros [[lo hi] Hrange].
  destruct (apply_filters_spec df ss lo hi Hrange) as (out & Hout & Hsub & _).
  exists out. split; [done|]. split; [done|]. split; [|split].
  - intros r Hr. by eapply elem_of_sublist.
  - intros Hnd. by eapply sublist_NoDup.
  - by apply sublist_length.
Qed.

Lemma apply_filters_sublist_witness :
  exists out, apply_filters two_devices (with_brand "B" (default_state two_devices)) = Ok out /\
    out `sublist_of` two_devices /\
    (forall r, r ∈ out -> r ∈ two_devices) /\
    (NoDup two_devices -> NoDup out) /\
    length out <= length two_devices.
Proof.
  apply (apply_filters_sublist two_devices (with_brand "B" (default_state two_devices))).
  by eexists.
Defined.

Lemma filter_all {A} (P : A -> Prop) `{!forall x, Decision (P x)} (l : list A) :
  Forall P l -> filter P l = l.
Proof.
  induction 1 as [|x l Hx _ IH]; [done|].
  rewrite filter_cons_True by done. by rewrite IH.
Qed.

(** Every number of the [Duration] column lies in the observed range. *)
Lemma observed_range_holds df r :
  r ∈ df -> not_nan (duration r) ->
  (series_min (map duration df) <=? duration r)%float = true /\
  (duration r <=? series_max (map duration df))%float = true.
Proof.
  intros Hr Hnum. split.
  - apply series_min_le; [|done]. apply list_elem_of_fmap. by exists r.
  - apply series_max_ge; [|done]. apply list_elem_of_fmap. by exists r.
Qed.

Lemma default_state_keeps_numbers df :
  Forall (fun r => not_nan (duration r)) df ->
  filter (fun r => (series_min (map duration df) <=? duration r)%float
                   && (duration r <=? series_max (map duration df))%float) df = df.
Proof.
  intros Hnum. apply filter_all. apply Forall_forall. intros r Hr.
  rewrite Forall_forall in Hnum.
  destruct (observed_range_holds df r Hr (Hnum r Hr)) as [Hlo Hhi].
  apply andb_True. by split; apply Is_true_true.
Qed.

(** C6, amended. The default selection state (all brands, no category, the
    full observed range of the durations) is the identity filter on every
    dataset whose [Duration] cells are all numbers: the filter block returns
    the dataset itself. *)
Theorem default_state_is_identity_filter (df : list Device) :
  Forall (fun r => not_nan (duration r)) df ->
  apply_filters df (default_state df) = Ok df.
Proof.
  intros Hnum. unfold apply_filters, default_state. simpl. f_equal.
  by apply default_state_keeps_numbers.
Qed.

Lemma default_state_is_identity_filter_witness :
  Forall (fun r => not_nan (duration r)) two_devices /\
  apply_filters two_devices (default_state two_devices) = Ok two_devices.
Proof.
  assert (Forall (fun r => not_nan (duration r)) two_devices) as Hnum.
  { repeat constructor. }
  split; [exact Hnum|].
  exact (default_state_is_identity_filter two_devices Hnum).
Defined.

(** C6 as stated, for every dataset, fails. A blank [Duration] cell is read as
    NaN; [min] and [max] skip it and both comparisons of lines 241-242 turn
    it down. On the two devices and a third whose duration is blank the
    default range is (2, 5), and the default state keeps the first two
    records, not the dataset. *)
Lemma default_state_drops_blank_duration :
  duration_range (default_state with_blank_duration) = Some (2.0, 5.0)%float /\
  apply_filters with_blank_duration (default_state with_blank_duration)
    = Ok two_devices /\
  apply_filters with_blank_duration (default_state with_blank_duration)
    <> Ok with_blank_duration.
Proof.
  split; [vm_compute; reflexivity|]. split; [vm_compute; reflexivity|].
  intros H.
  apply (f_equal (fun r => match r with Ok out => length out | Raise _ => 0 end)) in H.
  vm_compute in H. discriminate.
Qed.

(** A record whose [Duration] cell is blank (NaN) fails the comparisons of
    lines 241-242 whatever the range, the brand and the category: no view
    the filter block returns holds it. *)
Theorem blank_duration_is_never_kept df ss out r :
  apply_filters df ss = Ok out -> PrimFloat.is_nan (duration r) = true -> r ∉ out.
Proof.
  intros Hout Hnan Hr.
  destruct (duration_range ss) as [[lo hi]|] eqn:Hrange;
    [|unfold apply_filters in Hout; by rewrite Hrange in Hout].
  destruct (apply_filters_spec df ss lo hi Hrange) as (out' & Hout' & _ & Hin).
  assert (out' = out) as -> by congruence.
  destruct (proj1 (Hin r) Hr) as (_ & _ & _ & Hlo & _).
  destruct (leb_not_nan _ _ Hlo) as [_ Hnum]. unfold not_nan in Hnum. congruence.
Qed.

Lemma blank_duration_is_never_kept_witness :
  apply_filters with_blank_duration
    (set_duration_range (0.0, 100.0)%float (default_state with_blank_duration))
    = Ok two_devices /\
  PrimFloat.is_nan (duration (device "C" "Watch" nan)) = true /\
  device "C" "Watch" nan ∉ two_devices.
Proof.
  assert (apply_filters with_blank_duration
            (set_duration_range (0.0, 100.0)%float (default_state with_blank_duration))
          = Ok two_devices) as Hout by (vm_compute; reflexivity).
  assert (PrimFloat.is_nan (duration (device "C" "Watch" nan)) = true) as Hnan
    by reflexivity.
  split; [exact Hout|]. split; [exact Hnan|].
  exact (blank_duration_is_never_kept with_blank_duration _ two_devices
           (device "C" "Watch" nan) Hout Hnan).
Defined.

(** C8. On the dataset [{A, Phone, 2.0}; {B, Tablet, 5.0}], the filter with
    brand "A" and the other fields at their defaults returns exactly the first
    record, and the metrics of that view are count 1, mean duration 2.0, one
    brand and one category; a run of the dashboard in which the brand dropdown
    holds "A" renders that view and those metrics. *)
Theorem spec_example_brand_A :
  apply_filters two_devices (set_brand "A" (default_state two_devices))
    = Ok [device "A" "Phone" 2.0%float] /\
  key_metrics [device "A" "Phone" 2.0%float]
    = {| total_devices := 1; avg_duration := 2.0%float;
         unique_brands := 1; unique_categories := 1 |} /\
  dashboard two_devices new_session
      {| brand_selectbox := Some "A"; category_selectbox := None;
         duration_slider := None; clear_button := false |}
    = Rendered (set_brand "A" (default_state two_devices))
        [device "A" "Phone" 2.0%float]
        {| total_devices := 1; avg_duration := 2.0%float;
           unique_brands := 1; unique_categories := 1 |}.
Proof. repeat split; vm_compute; reflexivity. Qed.

(** ** The mutators of the selection state *)

(** C7. "Clear All Filters" resets the three fields at once: whatever the
    state before it, the state it leaves reads as the default state (brand
    "All Brands", category [None], range = the full observed range), and a run
    of the dashboard in which the button was clicked ends in a rerun with
    exactly that selection, whatever the widgets hold. *)
Theorem clear_all_yields_default_state (df : list Device) (ss : SessionState) :
  get_state (clear_all df ss) = get_state (default_state df) /\
  get_state (clear_all df ss) = ("All Brands", None, Some (observed_range df)) /\
  forall b c d, exists ss',
    dashboard df ss {| brand_selectbox := b; category_selectbox := c;
                       duration_slider := d; clear_button := true |} = Rerun ss' /\
    get_state ss' = get_state (default_state df).
Proof.
  split; [done|]. split; [done|].
  intros b c d. eexists. split; [reflexivity|done].
Qed.

Lemma set_category_frame (c : string) (ss : SessionState) :
  selected_brand (set_category c ss) = selected_brand ss /\
  duration_range (set_category c ss) = duration_range ss /\
  from_treemap (set_category c ss) = from_treemap ss.
Proof.
  unfold set_category. case_bool_decide; [done|].
  destruct (from_treemap ss) eqn:E; simpl; by rewrite ?E.
Qed.

(** C9. Each single-field mutator leaves the other fields of the selection
    state as they were: line 192 ([set_brand]) writes the brand only, lines
    211-214 ([set_category]) and a chart selection ([select_from_chart]) write
    the category only, line 225 ([set_duration_range]) writes the range only;
    for every state and every argument. *)
Theorem mutators_frame (ss : SessionState) :
  (forall b,
     selected_category (set_brand b ss) = selected_category ss /\
     duration_range (set_brand b ss) = duration_range ss) /\
  (forall c,
     selected_brand (set_category c ss) = selected_brand ss /\
     duration_range (set_category c ss) = duration_range ss) /\
  (forall r,
     selected_brand (set_duration_range r ss) = selected_brand ss /\
     selected_category (set_duration_range r ss) = selected_category ss) /\
  (forall c,
     selected_brand (select_from_chart c ss) = selected_brand ss /\
     duration_range (select_from_chart c ss) = duration_range ss).
Proof.
  split; [done|]. split; [|done].
  intros c. destruct (set_category_frame c ss) as (? & ? & _). done.
Qed.

(** The same for the three sidebar blocks, whatever the widgets hold. *)
Lemma sections_frame (df : list Device) (ss : SessionState) :
  (forall held,
     selected_category (brand_section df held ss) = selected_category ss /\
     duration_range (brand_section df held ss) = duration_range ss) /\
  (forall held,
     selected_brand (category_section df held ss) = selected_brand ss /\
     duration_range (category_section df held ss) = duration_range ss) /\
  (forall held,
     selected_brand (duration_section held ss) = selected_brand ss /\
     selected_category (duration_section held ss) = selected_category ss).
Proof.
  split; [done|]. split.
  - intros held. unfold category_section.
    destruct (set_category_frame
      (selectbox (all_categories df) (default_category_index df ss) held) ss)
      as (? & ? & _).
    done.
  - intros held. unfold duration_section. by destruct (duration_range ss).
Qed.

(** ** The slider block between its bounds *)

Lemma set_duration_range_same ss value :
  duration_range ss = Some value -> set_duration_range value ss = ss.
Proof. destruct ss. simpl. by intros ->. Qed.

(** When line 218 returns, the block has written what [duration_section]
    writes, or the range the session had. *)
Lemma bounded_duration_section_refines df held ss ss' :
  bounded_duration_section df held ss = Some ss' ->
  ss' = duration_section held ss \/ ss' = ss.
Proof.
  unfold bounded_duration_section, bounded_slider, duration_section, slider.
  destruct (duration_range ss) as [value|] eqn:Hrange; [|done].
  destruct (slider_is_drawn _ _ value); [|done].
  destruct held as [p|]; simpl.
  - destruct (_ && _); intros [= <-]; [by left|].
    right. by apply set_duration_range_same.
  - intros [= <-]. by left.
Qed.

(** A pair the widget holds with both ends within the bounds is stored as it
    comes: the block does not compare the two ends. *)
Lemma in_bounds_range_is_stored df ss value lo hi :
  duration_range ss = Some value ->
  slider_is_drawn (series_min (map duration df)) (series_max (map duration df)) value
    = true ->
  within_bounds (series_min (map duration df)) (series_max (map duration df)) lo = true ->
  within_bounds (series_min (map duration df)) (series_max (map duration df)) hi = true ->
  bounded_duration_section df (Some (lo, hi)) ss
    = Some (set_duration_range (lo, hi) ss).
Proof.
  intros Hrange Hdrawn Hlo Hhi.
  unfold bounded_duration_section, bounded_slider.
  rewrite Hrange, Hdrawn. simpl. by rewrite Hlo, Hhi.
Qed.




(** ** The category dropdown and a chart selection *)

Lemma index_Some (x : string) (l : list string) :
  x ∈ l -> exists i, index x l = Some i /\ l !! i = Some x.
Proof.
  induction l as [|y l IH]; intros Hin; [by inversion Hin|]. simpl.
  destruct (decide (y = x)) as [->|Hne]; [by exists 0|].
  apply elem_of_cons in Hin as [->|Hin]; [done|].
  destruct (IH Hin) as (i & Hi & Hl). exists (S i). by rewrite Hi.
Qed.

Lemma elem_of_unique (x : string) (l : list string) : x ∈ unique l <-> x ∈ l.
Proof.
  induction l as [|y l IH]; [done|]. simpl.
  rewrite !elem_of_cons, list_elem_of_filter, IH.
  destruct (decide (x = y)); intuition.
Qed.

Lemma elem_of_sorted (x : string) (l : list string) : x ∈ sorted l <-> x ∈ l.
Proof. unfold sorted. by rewrite merge_sort_Permutation. Qed.

(** The index lines 197-202 hand to the dropdown points at the selected
    category, when that is a non-empty category of the dataset. *)
Lemma default_category_index_points_at_selection df ss c :
  selected_category ss = Some c ->
  c ∈ map device_category df -> c <> "" ->
  all_categories df !! default_category_index df ss = Some c.
Proof.
  intros Hsel Hin Hne. unfold default_category_index. rewrite Hsel.
  rewrite bool_decide_true by done.
  rewrite bool_decide_true by (by apply elem_of_unique).
  cbn [andb].
  assert (c ∈ all_categories df) as Hall.
  { unfold all_categories. apply elem_of_cons. right.
    by apply elem_of_sorted, elem_of_unique. }
  destruct (index_Some c _ Hall) as (i & Hi & Hl). by rewrite Hi.
Qed.

(** When the dropdown holds no value of its own (a first render), it shows
    the category a chart selection wrote, and the selection stays. *)
Lemma fresh_dropdown_shows_chart_selection df ss c :
  c ∈ map device_category df -> c <> "" -> c <> "All Categories" ->
  selectbox (all_categories df)
    (default_category_index df (select_from_chart c ss)) None = c /\
  category_section df None (select_from_chart c ss) = select_from_chart c ss.
Proof.
  intros Hin Hne Hsent.
  assert (selectbox (all_categories df)
            (default_category_index df (select_from_chart c ss)) None = c) as Hshow.
  { unfold selectbox.
    by rewrite (default_category_index_points_at_selection df _ c). }
  split; [done|]. unfold category_section. rewrite Hshow.
  unfold set_category. by rewrite bool_decide_true.
Qed.

Lemma fresh_dropdown_shows_chart_selection_witness :
  "Smartphones" ∈ map device_category phones /\
  "Smartphones" <> "" /\ "Smartphones" <> "All Categories" /\
  selectbox (all_categories phones)
    (default_category_index phones
       (select_from_chart "Smartphones" (default_state phones))) None
    = "Smartphones" /\
  category_section phones None (select_from_chart "Smartphones" (default_state phones))
    = select_from_chart "Smartphones" (default_state phones).
Proof.
  assert ("Smartphones" ∈ map device_category phones) as Hin by (simpl; by left).
  assert ("Smartphones" <> "") as Hne by done.
  assert ("Smartphones" <> "All Categories") as Hsent by done.
  split; [exact Hin|]. split; [exact Hne|]. split; [exact Hsent|].
  exact (fresh_dropdown_shows_chart_selection phones (default_state phones)
           "Smartphones" Hin Hne Hsent).
Defined.

Lemma set_category_valid (c : string) (ss : SessionState) :
  from_treemap ss = false ->
  selected_category (set_category c ss) <> Some "All Categories".
Proof.
  intros Hflag. unfold set_category. case_bool_decide as Hc.
  - simpl. congruence.
  - by rewrite Hflag.
Qed.

Lemma index_head (x : string) (l : list string) : index x (x :: l) = Some 0.
Proof. simpl. by rewrite decide_True. Qed.


(** A category that is the empty text is falsy on line 197: the dropdown is
    handed index 0 and, holding nothing, shows "All Categories". *)
Lemma empty_category_is_not_preselected df ss :
  selected_category ss = Some "" ->
  default_category_index df ss = 0 /\
  selectbox (all_categories df) (default_category_index df ss) None = "All Categories".
Proof.
  intros Hsel. unfold default_category_index. rewrite Hsel.
  by rewrite bool_decide_false by (by intros H; apply H).
Qed.




(** ** Whole runs *)

(** The first run of the script on [sheet_of_two]: the sheet loads, the
    session gets its defaults and both devices are rendered. *)
Example first_run_on_sheet_of_two :
  script parse_sample (Some sheet_of_two) None no_widget_state
    = Rendered
        {| selected_category := None; selected_brand := "All Brands";
           duration_range := Some (1.5, 3.0)%float; from_treemap := false |}
        [ {| brand := "Nest"; device_category := "Smart Home";
             duration := 1.5%float; reason := CStr "Server shutdown" |};
          {| brand := "Apple"; device_category := "Smartphones";
             duration := 3.0%float; reason := CStr "End of software support" |} ]
        {| total_devices := 2; avg_duration := 2.25%float;
           unique_brands := 2; unique_categories := 2 |}.
Proof. vm_compute. reflexivity. Qed.

(** ** Loading *)

(** C4. When the spreadsheet is absent, [load_data] shows the error box and
    returns [None]: no frame, sample or other, is made in its place; [main]
    then returns at once, with the session state untouched and whatever the
    widgets hold, and so does a whole run of the script. *)
Theorem missing_file_stops_the_run (parse_datetime : Cell -> option Timestamp) :
  load_data parse_datetime None
    = Ok {| shown := [file_not_found_message]; returned := None |} /\
  (forall ss ui,
     main parse_datetime None ss ui = Stopped [file_not_found_message] ss) /\
  (forall stored ui,
     script parse_datetime None stored ui
       = Stopped [file_not_found_message] (init_session_state stored)).
Proof. repeat split. Qed.

(** ** Columns of a frame *)

Lemma index_lookup (x : string) (l : list string) (i : nat) :
  index x l = Some i -> l !! i = Some x.
Proof.
  revert i. induction l as [|y l IH]; intros i; [done|]. simpl.
  destruct (decide (y = x)) as [->|Hne]; [by intros [= <-]|].
  destruct (index x l) as [j|]; [|done]. intros [= <-]. by apply IH.
Qed.

Lemma index_None (x : string) (l : list string) : index x l = None <-> x ∉ l.
Proof.
  induction l as [|y l IH]; simpl.
  - split; [intros _ H; by inversion H|done].
  - destruct (decide (y = x)) as [->|Hne].
    + split; [done|]. intros H. exfalso. apply H. by left.
    + rewrite not_elem_of_cons, <- IH. destruct (index x l); simpl; intuition congruence.
Qed.

Lemma index_app_other (a b : string) (l : list string) :
  a <> b -> index a (l ++ [b]) = index a l.
Proof.
  intros Hne. induction l as [|y l IH]; simpl.
  - by rewrite decide_False.
  - destruct (decide (y = a)); [done|]. by rewrite IH.
Qed.

Lemma index_app_new (a : string) (l : list string) :
  index a l = None -> index a (l ++ [a]) = Some (length l).
Proof.
  induction l as [|y l IH]; simpl.
  - by rewrite decide_True.
  - destruct (decide (y = a)); [done|].
    destruct (index a l); [done|]. intros _. by rewrite IH.
Qed.

Lemma map_result_length {A B} (f : A -> result B) (l : list A) (l' : list B) :
  map_result f l = Ok l' -> length l' = length l.
Proof.
  revert l'. induction l as [|a l IH]; intros l'; simpl.
  - by intros [= <-].
  - destruct (f a); [|done]. simpl.
    destruct (map_result f l) as [bs|]; [|done]. simpl.
    intros [= <-]. simpl. f_equal. by apply IH.
Qed.

Lemma get_column_length label df vs :
  get_column label df = Ok vs -> length vs = length (rows df).
Proof.
  unfold get_column. destruct (index label (columns df)); [|done].
  intros [= <-]. by rewrite length_map.
Qed.

Lemma zip_with_cells_length f rs cs :
  length cs = length rs -> length (zip_with_cells f rs cs) = length rs.
Proof.
  revert cs. induction rs as [|r rs IH]; intros [|c cs]; simpl; try done.
  intros [= H]. f_equal. by apply IH.
Qed.

Lemma set_column_length label vs df :
  length vs = length (rows df) ->
  length (rows (set_column label vs df)) = length (rows df).
Proof.
  intros H. unfold set_column.
  destruct (index label (columns df)); simpl; by apply zip_with_cells_length.
Qed.

Lemma zip_with_cells_Forall (P Q : list Cell -> Prop) f rs cs :
  (forall r c, P r -> Q (f r c)) ->
  Forall P rs -> Forall Q (zip_with_cells f rs cs).
Proof.
  intros Hf Hrs. revert cs. induction Hrs as [|r rs Hr _ IH]; intros [|c cs]; simpl;
    constructor; auto.
Qed.

Lemma set_column_rectangular label vs df :
  rectangular df -> rectangular (set_column label vs df).
Proof.
  unfold rectangular, set_column. intros H.
  destruct (index label (columns df)) as [i|]; simpl.
  - eapply zip_with_cells_Forall; [|exact H]. intros r c Hr. simpl in *.
    by rewrite length_insert.
  - eapply zip_with_cells_Forall; [|exact H]. intros r c Hr. simpl in *.
    rewrite !length_app. simpl. lia.
Qed.

Lemma zip_with_cells_map (g : list Cell -> Cell) f rs cs :
  length cs = length rs ->
  (forall r c, r ∈ rs -> g (f r c) = g r) ->
  map g (zip_with_cells f rs cs) = map g rs.
Proof.
  revert cs. induction rs as [|r rs IH]; intros [|c cs]; simpl; try done.
  intros [= H] Hg. f_equal.
  - apply Hg. by left.
  - apply IH; [done|]. intros r' c' Hr'. apply Hg. by right.
Qed.

Lemma zip_with_cells_map_new (g : list Cell -> Cell) f rs cs :
  length cs = length rs ->
  (forall r c, r ∈ rs -> g (f r c) = c) ->
  map g (zip_with_cells f rs cs) = cs.
Proof.
  revert cs. induction rs as [|r rs IH]; intros [|c cs]; simpl; try done.
  intros [= H] Hg. f_equal.
  - apply Hg. by left.
  - apply IH; [done|]. intros r' c' Hr'. apply Hg. by right.
Qed.

Lemma get_set_other a b vs df :
  a <> b -> rectangular df -> length vs = length (rows df) ->
  get_column a (set_column b vs df) = get_column a df.
Proof.
  intros Hne Hrect Hlen. unfold get_column, set_column.
  destruct (index b (columns df)) as [j|] eqn:Hb; simpl.
  - destruct (index a (columns df)) as [i|] eqn:Ha; [|done]. f_equal.
    apply zip_with_cells_map; [done|]. intros r c _.
    rewrite list_lookup_insert_ne; [done|].
    intros <-. apply index_lookup in Ha, Hb. congruence.
  - rewrite index_app_other by done.
    destruct (index a (columns df)) as [i|] eqn:Ha; [|done]. f_equal.
    apply zip_with_cells_map; [done|]. intros r c Hr.
    rewrite lookup_app_l; [done|].
    unfold rectangular in Hrect. rewrite Forall_forall in Hrect.
    rewrite (Hrect r Hr). apply index_lookup in Ha. by eapply lookup_lt_Some.
Qed.

Lemma get_set_same a vs df :
  rectangular df -> length vs = length (rows df) ->
  get_column a (set_column a vs df) = Ok vs.
Proof.
  intros Hrect Hlen. unfold get_column, set_column.
  unfold rectangular in Hrect. rewrite Forall_forall in Hrect.
  destruct (index a (columns df)) as [i|] eqn:Ha; simpl.
  - rewrite Ha. f_equal. apply zip_with_cells_map_new; [done|]. intros r c Hr.
    rewrite list_lookup_insert_eq; [done|].
    rewrite (Hrect r Hr). apply index_lookup in Ha. by eapply lookup_lt_Some.
  - rewrite index_app_new by done. f_equal.
    apply zip_with_cells_map_new; [done|]. intros r c Hr.
    rewrite <- (Hrect r Hr). by rewrite list_lookup_middle.
Qed.

Lemma select_length {A B} (mask : list bool) (l : list A) (l' : list B) :
  length l = length l' -> length (select mask l) = length (select mask l').
Proof.
  revert l l'. induction mask as [|b mask IH]; intros [|a l] [|a' l']; simpl; try done.
  intros [= H]. destruct b; simpl; auto.
Qed.

Lemma select_index_Some (first label : string) (cols : list string) (i : nat) :
  label <> first -> index label cols = Some i ->
  exists j, index label (select (map (fun c => bool_decide (c <> first)) cols) cols) = Some j /\
    forall row : list Cell, length row = length cols ->
      select (map (fun c => bool_decide (c <> first)) cols) row !! j = row !! i.
Proof.
  intros Hne. revert i. induction cols as [|c cols IH]; intros i; simpl; [done|].
  destruct (decide (c = label)) as [->|Hc].
  - intros [= <-]. rewrite bool_decide_true by done. simpl.
    rewrite decide_True by done. exists 0. split; [done|]. by intros [|x row].
  - destruct (index label cols) as [i'|]; [|done]. intros [= <-].
    destruct (IH i' eq_refl) as (j & Hj & Hrow).
    case_bool_decide; simpl.
    + rewrite decide_False by done. rewrite Hj. exists (S j). split; [done|].
      intros [|x row]; [done|]. intros [= Hlen]. simpl. by apply Hrow.
    + exists j. split; [done|].
      intros [|x row]; [done|]. intros [= Hlen]. simpl. by apply Hrow.
Qed.

Lemma select_index_None (first label : string) (cols : list string) :
  index label cols = None ->
  index label (select (map (fun c => bool_decide (c <> first)) cols) cols) = None.
Proof.
  rewrite !index_None. intros Hnot Hin. apply Hnot. clear Hnot.
  induction cols as [|c cols IH]; simpl in *; [done|].
  case_bool_decide; [|right; auto].
  apply elem_of_cons in Hin as [->|Hin]; [by left|right; auto].
Qed.

Lemma drop_column_first_gone first df :
  get_column first (drop_column first df) = Raise (KeyError first).
Proof.
  unfold get_column, drop_column. simpl.
  assert (index first (select (map (fun c => bool_decide (c <> first)) (columns df))
                         (columns df)) = None) as ->; [|done].
  apply index_None. induction (columns df) as [|c cols IH]; simpl.
  - intros H. by inversion H.
  - case_bool_decide; [|done]. by apply not_elem_of_cons.
Qed.

Lemma drop_column_rectangular first df :
  rectangular df -> rectangular (drop_column first df).
Proof.
  unfold rectangular, drop_column. simpl. intros H.
  apply Forall_fmap. eapply Forall_impl; [exact H|].
  intros row Hrow. simpl. by apply select_length.
Qed.

Lemma get_drop_other label first df :
  label <> first -> rectangular df ->
  get_column label (drop_column first df) = get_column label df.
Proof.
  intros Hne Hrect. unfold get_column, drop_column. simpl.
  unfold rectangular in Hrect. rewrite Forall_forall in Hrect.
  destruct (index label (columns df)) as [i|] eqn:Hi.
  - destruct (select_index_Some first label _ i Hne Hi) as (j & -> & Hrow).
    f_equal. rewrite <- list_fmap_compose. apply list_fmap_ext.
    intros k row Hk. simpl. rewrite Hrow; [done|].
    apply Hrect. by eapply list_elem_of_lookup_2.
  - by rewrite select_index_None.
Qed.

Lemma to_datetime_is_time parse s s' :
  to_datetime parse s = Ok s' -> Forall is_time s'.
Proof.
  unfold to_datetime. revert s'. induction s as [|c s IH]; intros s'; simpl.
  - intros [= <-]. constructor.
  - destruct (to_datetime_cell parse c) as [c'|] eqn:Hc; [|done]. simpl.
    destruct (map_result (to_datetime_cell parse) s) as [cs|]; [|done]. simpl.
    intros [= <-]. constructor; [|by apply IH].
    unfold to_datetime_cell in Hc.
    destruct c; repeat case_match; simplify_eq; done.
Qed.

Lemma bind_Ok {A B} (r : result A) (k : A -> result B) b :
  bind r k = Ok b -> exists a, r = Ok a /\ k a = Ok b.
Proof. destruct r; [|done]. simpl. eauto. Qed.

(** C5, as stated, fails: [load_data] computes no duration. A spreadsheet
    without a [Duration] column loads into a frame without one, so that [main]
    raises [KeyError] at its first use; a blank [Duration] cell stays blank,
    whatever the two dates are. *)
Lemma load_data_computes_no_duration :
  (exists out,
     load_data no_parsing (Some sheet_without_duration)
       = Ok {| shown := []; returned := Some out |} /\
     columns out = ["Device Name"; "Brand"; "Device Category"; "Start Date";
                    "End Date"; "Reason for Discontinuing"; "Start Year"; "End Year"] /\
     get_column "Duration" out = Raise (KeyError "Duration")) /\
  main no_parsing (Some sheet_without_duration) new_session no_widget_state
    = Raised (KeyError "Duration") /\
  (exists out,
     load_data no_parsing (Some sheet_with_blank_duration)
       = Ok {| shown := []; returned := Some out |} /\
     get_column "Duration" out = Ok [CFloat nan]).
Proof.
  split; [|split].
  - eexists. split; [vm_compute; reflexivity|]. split; reflexivity.
  - vm_compute. reflexivity.
  - eexists. split; [vm_compute; reflexivity|]. reflexivity.
Qed.

(** C5, amended. On success on a rectangular sheet, [load_data] shows no
    error and returns a frame in which the leading column of the sheet has
    been dropped, the cells of [Start Date] and [End Date] are the timestamps
    [pd.to_datetime] made of them, [Start Year] and [End Year] hold their
    years, and every other column, [Duration] included, is as the sheet had
    it: [KeyError] where the sheet has no such column, cell for cell the
    sheet's otherwise. No duration is computed. *)
Theorem load_data_passes_columns_through
    (parse_datetime : Cell -> option Timestamp) (df : Frame) (loaded : Loaded) :
  rectangular df ->
  load_data parse_datetime (Some df) = Ok loaded ->
  exists first out starts ends,
    head (columns df) = Some first /\
    shown loaded = [] /\ returned loaded = Some out /\
    get_column first (drop_column first df) = Raise (KeyError first) /\
    bind (get_column "Start Date" (drop_column first df)) (to_datetime parse_datetime)
      = Ok starts /\
    bind (get_column "End Date" (drop_column first df)) (to_datetime parse_datetime)
      = Ok ends /\
    Forall is_time starts /\ Forall is_time ends /\
    get_column "Start Date" out = Ok starts /\
    get_column "End Date" out = Ok ends /\
    get_column "Start Year" out = Ok (dt_year starts) /\
    get_column "End Year" out = Ok (dt_year ends) /\
    forall label,
      label ∉ ["Start Date"; "End Date"; "Start Year"; "End Year"] ->
      get_column label out = get_column label (drop_column first df) /\
      (label <> first -> get_column label out = get_column label df).
Proof.
  intros Hrect. unfold load_data.
  destruct (columns df) as [|first cols] eqn:Hcols; [done|].
  set (df0 := drop_column first df).
  assert (rectangular df0) as Hrect0 by (by apply drop_column_rectangular).
  intros H.
  apply bind_Ok in H as (s0 & Hs0 & H).
  apply bind_Ok in H as (s1 & Hs1 & H).
  set (df1 := set_column "Start Date" s1 df0) in *.
  apply bind_Ok in H as (e0 & He0 & H).
  apply bind_Ok in H as (e1 & He1 & H).
  set (df2 := set_column "End Date" e1 df1) in *.
  apply bind_Ok in H as (s2 & Hs2 & H).
  set (df3 := set_column "Start Year" (dt_year s2) df2) in *.
  apply bind_Ok in H as (e2 & He2 & H).
  set (df4 := set_column "End Year" (dt_year e2) df3) in *.
  injection H as <-.
  assert (length s1 = length (rows df0)) as Ls1.
  { rewrite (map_result_length _ _ _ Hs1). by apply get_column_length in Hs0. }
  assert (rectangular df1) as Hrect1 by (by apply set_column_rectangular).
  assert (length (rows df1) = length (rows df0)) as L1 by (by apply set_column_length).
  assert (length e1 = length (rows df1)) as Le1.
  { rewrite (map_result_length _ _ _ He1). by apply get_column_length in He0. }
  assert (rectangular df2) as Hrect2 by (by apply set_column_rectangular).
  assert (length (rows df2) = length (rows df1)) as L2 by (by apply set_column_length).
  assert (length (dt_year s2) = length (rows df2)) as Ls2.
  { unfold dt_year. rewrite length_map. by apply get_column_length in Hs2. }
  assert (rectangular df3) as Hrect3 by (by apply set_column_rectangular).
  assert (length (rows df3) = length (rows df2)) as L3 by (by apply set_column_length).
  assert (length (dt_year e2) = length (rows df3)) as Le2.
  { unfold dt_year. rewrite length_map. by apply get_column_length in He2. }
  assert (get_column "End Date" df0 = Ok e0) as He0'.
  { rewrite <- He0. symmetry. by apply get_set_other. }
  assert (s2 = s1) as ->.
  { unfold df2 in Hs2. rewrite get_set_other in Hs2 by done.
    unfold df1 in Hs2. rewrite get_set_same in Hs2 by done. congruence. }
  assert (e2 = e1) as ->.
  { unfold df3 in He2. rewrite get_set_other in He2 by done.
    unfold df2 in He2. rewrite get_set_same in He2 by done. congruence. }
  exists first, df4, s1, e1. simpl.
  split; [done|]. split; [done|]. split; [done|].
  split; [apply drop_column_first_gone|].
  split; [fold df0; by rewrite Hs0|].
  split; [fold df0; by rewrite He0'|].
  split; [by eapply to_datetime_is_time|].
  split; [by eapply to_datetime_is_time|].
  split.
  { unfold df4. rewrite get_set_other by done.
    unfold df3. rewrite get_set_other by done. done. }
  split.
  { unfold df4. rewrite get_set_other by done.
    unfold df3. rewrite get_set_other by done.
    unfold df2. by rewrite get_set_same. }
  split.
  { unfold df4. rewrite get_set_other by done.
    unfold df3. by rewrite get_set_same. }
  split.
  { unfold df4. by rewrite get_set_same. }
  intros label Hlabel.
  rewrite !not_elem_of_cons in Hlabel. destruct Hlabel as (? & ? & ? & ? & _).
  assert (get_column label df4 = get_column label df0) as Hsame.
  { unfold df4. rewrite get_set_other by done.
    unfold df3. rewrite get_set_other by done.
    unfold df2. rewrite get_set_other by done.
    unfold df1. by rewrite get_set_other. }
  split; [done|]. intros Hfirst. rewrite Hsame. by apply get_drop_other.
Qed.

Lemma load_data_passes_columns_through_witness :
  rectangular sheet_with_blank_duration /\
  exists loaded,
    load_data no_parsing (Some sheet_with_blank_duration) = Ok loaded /\
    exists first out starts ends,
      head (columns sheet_with_blank_duration) = Some first /\
      shown loaded = [] /\ returned loaded = Some out /\
      get_column first (drop_column first sheet_with_blank_duration)
        = Raise (KeyError first) /\
      bind (get_column "Start Date" (drop_column first sheet_with_blank_duration))
        (to_datetime no_parsing) = Ok starts /\
      bind (get_column "End Date" (drop_column first sheet_with_blank_duration))
        (to_datetime no_parsing) = Ok ends /\
      Forall is_time starts /\ Forall is_time ends /\
      get_column "Start Date" out = Ok starts /\
      get_column "End Date" out = Ok ends /\
      get_column "Start Year" out = Ok (dt_year starts) /\
      get_column "End Year" out = Ok (dt_year ends) /\
      forall label,
        label ∉ ["Start Date"; "End Date"; "Start Year"; "End Year"] ->
        get_column label out
          = get_column label (drop_column first sheet_with_blank_duration) /\
        (label <> first ->
         get_column label out = get_column label sheet_with_blank_duration).
Proof.
  assert (rectangular sheet_with_blank_duration) as Hrect.
  { unfold rectangular. simpl. repeat constructor. }
  split; [exact Hrect|].
  eexists. split; [vm_compute; reflexivity|].
  apply (load_data_passes_columns_through no_parsing sheet_with_blank_duration);
    [exact Hrect|vm_compute; reflexivity].
Defined.

(** * Further properties *)

(** ** The filter block, continued *)

Lemma apply_filters_one_mask df ss lo hi :
  duration_range ss = Some (lo, hi) ->
  apply_filters df ss = Ok (filter (kept ss lo hi) df).
Proof.
  intros Hrange. unfold apply_filters. rewrite Hrange. f_equal.
  destruct ss as [cat b rng flag]. cbn [selected_category selected_brand] in *.
  destruct cat as [c|]; repeat case_bool_decide;
    rewrite ?list_filter_filter; apply list_filter_iff; intros r;
    unfold kept; cbn [selected_category selected_brand];
    rewrite ?andb_True, ?Is_true_true; intuition (subst; auto; congruence).
Qed.

Lemma filter_mono {A} (P Q : A -> Prop) `{!forall x, Decision (P x)}
    `{!forall x, Decision (Q x)} (l : list A) :
  (forall x, P x -> Q x) -> filter P l `sublist_of` filter Q l.
Proof.
  intros HPQ. induction l as [|x l IH]; [done|].
  destruct (decide (P x)) as [HP|HP].
  - rewrite (filter_cons_True P) by done.
    rewrite (filter_cons_True Q) by auto. by constructor.
  - rewrite (filter_cons_False P) by done.
    destruct (decide (Q x)).
    + rewrite (filter_cons_True Q) by done. by constructor.
    + by rewrite (filter_cons_False Q).
Qed.

(** Filtering a view again with the same selection changes nothing. *)
Theorem apply_filters_idempotent df ss out :
  apply_filters df ss = Ok out -> apply_filters out ss = Ok out.
Proof.
  intros H.
  destruct (duration_range ss) as [[lo hi]|] eqn:Hrange.
  - rewrite (apply_filters_one_mask df ss lo hi Hrange) in H.
    rewrite (apply_filters_one_mask out ss lo hi Hrange).
    injection H as <-. f_equal.
    by apply list_filter_filter_l.
  - unfold apply_filters in H. by rewrite Hrange in H.
Qed.

Lemma apply_filters_idempotent_witness :
  apply_filters two_devices (set_brand "A" (default_state two_devices))
    = Ok [device "A" "Phone" 2.0%float] /\
  apply_filters [device "A" "Phone" 2.0%float] (set_brand "A" (default_state two_devices))
    = Ok [device "A" "Phone" 2.0%float].
Proof.
  assert (apply_filters two_devices (set_brand "A" (default_state two_devices))
          = Ok [device "A" "Phone" 2.0%float]) as H by (vm_compute; reflexivity).
  split; [exact H|].
  exact (apply_filters_idempotent two_devices _ _ H).
Defined.


(** A wider range never loses a record: with the brand and the category
    as they are, the view of a range is a sublist of the view of any range that
    contains it. *)
Theorem apply_filters_monotone_in_range df ss lo hi lo' hi' :
  (lo' <=? lo)%float = true -> (hi <=? hi')%float = true ->
  exists out out',
    apply_filters df (set_duration_range (lo, hi) ss) = Ok out /\
    apply_filters df (set_duration_range (lo', hi') ss) = Ok out' /\
    out `sublist_of` out'.
Proof.
  intros Hlo Hhi.
  exists (filter (kept (set_duration_range (lo, hi) ss) lo hi) df),
         (filter (kept (set_duration_range (lo', hi') ss) lo' hi') df).
  split; [by apply apply_filters_one_mask|].
  split; [by apply apply_filters_one_mask|].
  apply filter_mono. intros r (Hb & Hc & H1 & H2).
  split; [done|]. split; [done|].
  split; eapply leb_trans; eauto.
Qed.

Lemma apply_filters_monotone_in_range_witness :
  (1.0 <=? 2.0)%float = true /\ (3.0 <=? 5.0)%float = true /\
  exists out out',
    apply_filters two_devices
      (set_duration_range (2.0, 3.0)%float (default_state two_devices)) = Ok out /\
    apply_filters two_devices
      (set_duration_range (1.0, 5.0)%float (default_state two_devices)) = Ok out' /\
    out `sublist_of` out'.
Proof.
  assert ((1.0 <=? 2.0)%float = true) as Hlo by reflexivity.
  assert ((3.0 <=? 5.0)%float = true) as Hhi by reflexivity.
  split; [exact Hlo|]. split; [exact Hhi|].
  exact (apply_filters_monotone_in_range two_devices (default_state two_devices)
           2.0%float 3.0%float 1.0%float 5.0%float Hlo Hhi).
Defined.


(** A range with lo <= hi false (an inverted pair, or a NaN end) matches
    nothing: the filter block returns the empty view, whatever the dataset,
    the brand and the category. *)
Theorem empty_range_matches_nothing df ss lo hi :
  duration_range ss = Some (lo, hi) -> (lo <=? hi)%float = false ->
  apply_filters df ss = Ok [].
Proof.
  intros Hrange Hinv. rewrite (apply_filters_one_mask _ _ lo hi Hrange). f_equal.
  induction df as [|r df IH]; [done|].
  rewrite filter_cons_False; [done|].
  intros (_ & _ & H1 & H2). rewrite (leb_trans _ _ _ H1 H2) in Hinv. done.
Qed.

Lemma empty_range_matches_nothing_witness :
  duration_range (set_duration_range (4.0, 3.0)%float (default_state two_devices))
    = Some (4.0, 3.0)%float /\
  (4.0 <=? 3.0)%float = false /\
  apply_filters two_devices
    (set_duration_range (4.0, 3.0)%float (default_state two_devices)) = Ok [].
Proof.
  assert (duration_range
            (set_duration_range (4.0, 3.0)%float (default_state two_devices))
          = Some (4.0, 3.0)%float) as Hrange by reflexivity.
  assert ((4.0 <=? 3.0)%float = false) as Hinv by reflexivity.
  split; [exact Hrange|]. split; [exact Hinv|].
  exact (empty_range_matches_nothing two_devices _ 4.0%float 3.0%float Hrange Hinv).
Defined.

(** ** Runs of the dashboard *)

Lemma category_section_range df held ss :
  duration_range (category_section df held ss) = duration_range ss.
Proof.
  unfold category_section.
  by destruct (set_category_frame
    (selectbox (all_categories df) (default_category_index df ss) held) ss) as (_ & ? & _).
Qed.

Lemma after_sidebar_range df ui ss :
  exists lo hi, duration_range (after_sidebar df ui ss) = Some (lo, hi).
Proof.
  unfold after_sidebar, duration_section.
  rewrite category_section_range.
  cbn [brand_section set_brand with_brand duration_range].
  unfold init_duration_range.
  destruct (duration_range ss) as [[lo hi]|] eqn:E; cbn [with_range duration_range];
    rewrite ?E; destruct (slider _ _) as [lo' hi']; cbn; eauto.
Qed.

Lemma dashboard_cases df ss ui :
  clear_button ui = false ->
  exists out, apply_filters df (after_sidebar df ui ss) = Ok out /\
    dashboard df ss ui =
      if bool_decide (length out = 0) then NoMatch (after_sidebar df ui ss)
      else Rendered (after_sidebar df ui ss) out (key_metrics out).
Proof.
  intros Hclear. unfold dashboard. fold (after_sidebar df ui ss). rewrite Hclear.
  destruct (after_sidebar_range df ui ss) as (lo & hi & Hrange).
  rewrite (apply_filters_one_mask _ _ lo hi Hrange). eauto.
Qed.

Lemma dashboard_Rendered df ss ui ss' out m :
  dashboard df ss ui = Rendered ss' out m ->
  ss' = after_sidebar df ui ss /\ apply_filters df ss' = Ok out /\
  out <> [] /\ m = key_metrics out.
Proof.
  destruct (clear_button ui) eqn:Hclear.
  { unfold dashboard. by rewrite Hclear. }
  destruct (dashboard_cases df ss ui Hclear) as (out' & Hout & ->).
  case_bool_decide as Hlen; [done|]. intros [= <- <- <-].
  repeat split; [done|]. by intros ->.
Qed.

(** The sidebar leaves a state the filter block can run on, and creates no
    [_from_treemap]. *)
Lemma after_sidebar_valid df ui ss :
  from_treemap ss = false ->
  valid_state (after_sidebar df ui ss) /\ from_treemap (after_sidebar df ui ss) = false.
Proof.
  intros Hflag. unfold after_sidebar.
  set (ss1 := init_duration_range df ss).
  set (ss2 := brand_section df (brand_selectbox ui) ss1).
  set (sel := selectbox (all_categories df) (default_category_index df ss2)
                (category_selectbox ui)).
  assert (from_treemap ss2 = false /\ is_Some (duration_range ss2)) as [F2 R2].
  { unfold ss2, ss1, init_duration_range.
    destruct (duration_range ss) eqn:E; simpl; rewrite ?E; eauto. }
  destruct (set_category_frame sel ss2) as (_ & R3 & F3).
  pose proof (set_category_valid sel ss2 F2) as C3.
  unfold category_section. fold sel.
  unfold duration_section, valid_state.
  destruct R2 as [v Hv]. rewrite R3, Hv. simpl.
  rewrite F3, F2. eauto.
Qed.

(** A page is rendered with a state the filter block can run on: the range
    is a pair, the category is [None] or a category, never the dropdown's
    "All Categories", and [_from_treemap] has not been created. *)
Theorem rendered_run_leaves_valid_state df ss ui ss' out m :
  dashboard df ss ui = Rendered ss' out m ->
  from_treemap ss = false ->
  valid_state ss' /\ from_treemap ss' = false.
Proof.
  intros (-> & _)%dashboard_Rendered Hflag. by apply after_sidebar_valid.
Qed.

Lemma rendered_run_leaves_valid_state_witness :
  let ui := {| brand_selectbox := Some "Apple"; category_selectbox := Some "Smartphones";
               duration_slider := None; clear_button := false |} in
  exists ss' out m,
    dashboard phones new_session ui = Rendered ss' out m /\
    from_treemap new_session = false /\
    valid_state ss' /\ from_treemap ss' = false.
Proof.
  cbn zeta. eexists _, _, _.
  assert (forall A B C : Prop, A -> B -> (A -> B -> C) -> A /\ B /\ C) as Hand by tauto.
  apply Hand; [vm_compute; reflexivity|reflexivity|].
  apply rendered_run_leaves_valid_state.
Defined.

(** The first run of a session, before the user touches a widget: the page
    it renders, on a dataset whose durations are all numbers, is that of the
    default state (all brands, no category, the full observed range) and of
    the whole dataset: "Total Devices" is its size, "Unique Brands" and
    "Device Categories" count its brands and its categories. *)
Theorem first_page_shows_whole_dataset df ss' out m :
  dashboard df new_session no_widget_state = Rendered ss' out m ->
  Forall (fun r => not_nan (duration r)) df ->
  ss' = default_state df /\ out = df /\
  total_devices m = length df /\
  unique_brands m = nunique (map brand df) /\
  unique_categories m = nunique (map device_category df).
Proof.
  intros (-> & Hout & _ & ->)%dashboard_Rendered Hnum.
  assert (after_sidebar df no_widget_state new_session = default_state df) as Hstate.
  { unfold after_sidebar.
    cbn [no_widget_state brand_selectbox category_selectbox duration_slider].
    fold (default_state df).
    assert (brand_section df None (default_state df) = default_state df) as ->.
    { unfold brand_section, brand_index, all_brands. by rewrite index_head. }
    reflexivity. }
  rewrite Hstate in *.
  assert (apply_filters df (default_state df) = Ok df) as Hall.
  { unfold apply_filters, default_state. simpl. f_equal.
    by apply default_state_keeps_numbers. }
  assert (out = df) as -> by congruence.
  done.
Qed.

Lemma first_page_shows_whole_dataset_witness :
  exists ss' out m,
    dashboard two_devices new_session no_widget_state = Rendered ss' out m /\
    Forall (fun r => not_nan (duration r)) two_devices /\
    ss' = default_state two_devices /\ out = two_devices /\
    total_devices m = length two_devices /\
    unique_brands m = nunique (map brand two_devices) /\
    unique_categories m = nunique (map device_category two_devices).
Proof.
  eexists _, _, _.
  assert (forall A B C : Prop, A -> B -> (A -> B -> C) -> A /\ B /\ C) as Hand by tauto.
  apply Hand; [vm_compute; reflexivity|repeat constructor|].
  apply first_page_shows_whole_dataset.
Defined.

Lemma unique_constant (b : string) (l : list string) :
  l <> [] -> (forall x, x ∈ l -> x = b) -> unique l = [b].
Proof.
  induction l as [|x l IH]; [done|]. intros _ Hall. simpl.
  rewrite (Hall x) by (by left). f_equal.
  assert (Forall (fun y => ~ y <> b) (unique l)) as Hnone.
  { apply Forall_forall. intros y Hy Hne.
    apply (proj1 (elem_of_unique y l)) in Hy.
    apply Hne, Hall, elem_of_cons. by right. }
  clear IH Hall. induction Hnone as [|y k Hy _ IH]; [done|].
  by rewrite filter_cons_False.
Qed.

Lemma length_unique (l : list string) : length (unique l) <= length l.
Proof.
  induction l as [|x l IH]; [done|]. simpl.
  pose proof (length_filter (fun y => y <> x) (unique l)). lia.
Qed.

Lemma unique_nonempty (l : list string) : l <> [] -> 1 <= length (unique l).
Proof. destruct l; [done|]. simpl. lia. Qed.

(** On a rendered page, a selected brand is the brand of every record of the
    view and "Unique Brands" reads 1; a selected category is the category of
    every record of the view and "Device Categories" reads 1. *)
Theorem selection_shows_in_metrics df ss ui ss' out m :
  dashboard df ss ui = Rendered ss' out m ->
  (selected_brand ss' <> "All Brands" ->
     unique_brands m = 1 /\ forall r, r ∈ out -> brand r = selected_brand ss') /\
  (forall c, selected_category ss' = Some c -> c <> "All Categories" ->
     unique_categories m = 1 /\ forall r, r ∈ out -> device_category r = c).
Proof.
  intros (_ & Hout & Hne & ->)%dashboard_Rendered.
  destruct (duration_range ss') as [[lo hi]|] eqn:Hrange;
    [|unfold apply_filters in Hout; by rewrite Hrange in Hout].
  destruct (apply_filters_spec df ss' lo hi Hrange) as (out' & Hout' & _ & Hin).
  rewrite Hout in Hout'. injection Hout' as <-.
  split.
  - intros Hb.
    assert (forall r, r ∈ out -> brand r = selected_brand ss') as Hall.
    { intros r (_ & [?|?] & _)%Hin; done. }
    split; [|done]. unfold key_metrics, nunique. simpl.
    rewrite (unique_constant (selected_brand ss')); [done|by destruct out|].
    intros x (r & -> & Hr)%list_elem_of_fmap. by apply Hall.
  - intros c Hc Hsent.
    assert (forall r, r ∈ out -> device_category r = c) as Hall.
    { intros r (_ & _ & Hcat & _)%Hin. rewrite Hc in Hcat. by destruct Hcat. }
    split; [|done]. unfold key_metrics, nunique. simpl.
    rewrite (unique_constant c); [done|by destruct out|].
    intros x (r & -> & Hr)%list_elem_of_fmap. by apply Hall.
Qed.

Lemma selection_shows_in_metrics_witness :
  let ui := {| brand_selectbox := Some "A"; category_selectbox := Some "Phone";
               duration_slider := None; clear_button := false |} in
  exists ss' out m,
    dashboard two_devices new_session ui = Rendered ss' out m /\
    (selected_brand ss' <> "All Brands" ->
       unique_brands m = 1 /\ forall r, r ∈ out -> brand r = selected_brand ss') /\
    (forall c, selected_category ss' = Some c -> c <> "All Categories" ->
       unique_categories m = 1 /\ forall r, r ∈ out -> device_category r = c).
Proof.
  cbn zeta. eexists _, _, _.
  assert (forall A B : Prop, A -> (A -> B) -> A /\ B) as Hand by tauto.
  apply Hand; [vm_compute; reflexivity|].
  apply selection_shows_in_metrics.
Defined.


(** A page is rendered only for a view that has records: "Total Devices" is
    the length of the view, at least 1 and at most the size of the dataset;
    "Unique Brands" and "Device Categories" lie between 1 and "Total Devices";
    and every duration of the view is a number, so that the mean skips none. *)
Theorem rendered_page_bounds df ss ui ss' out m :
  dashboard df ss ui = Rendered ss' out m ->
  total_devices m = length out /\
  1 <= total_devices m <= length df /\
  1 <= unique_brands m <= total_devices m /\
  1 <= unique_categories m <= total_devices m /\
  forall r, r ∈ out -> not_nan (duration r).
Proof.
  intros (_ & Hout & Hne & ->)%dashboard_Rendered.
  destruct (duration_range ss') as [[lo hi]|] eqn:Hrange;
    [|unfold apply_filters in Hout; by rewrite Hrange in Hout].
  destruct (apply_filters_spec df ss' lo hi Hrange) as (out' & Hout' & Hsub & Hin).
  rewrite Hout in Hout'. injection Hout' as <-.
  unfold key_metrics, nunique. simpl.
  split; [done|]. split.
  { split; [destruct out; [done|simpl; lia]|by apply sublist_length]. }
  split.
  { split; [apply unique_nonempty; by destruct out|].
    etrans; [apply length_unique|]. by rewrite length_map. }
  split.
  { split; [apply unique_nonempty; by destruct out|].
    etrans; [apply length_unique|]. by rewrite length_map. }
  intros r (_ & _ & _ & Hlo & _)%Hin. by apply leb_not_nan in Hlo as [_ ?].
Qed.

Lemma rendered_page_bounds_witness :
  exists ss' out m,
    dashboard two_devices new_session no_widget_state = Rendered ss' out m /\
    total_devices m = length out /\
    1 <= total_devices m <= length two_devices /\
    1 <= unique_brands m <= total_devices m /\
    1 <= unique_categories m <= total_devices m /\
    forall r, r ∈ out -> not_nan (duration r).
Proof.
  eexists _, _, _.
  assert (forall A B : Prop, A -> (A -> B) -> A /\ B) as Hand by tauto.
  apply Hand; [vm_compute; reflexivity|].
  apply rendered_page_bounds.
Defined.




(** ** The sidebar blocks *)

Lemma state_ext (s t : SessionState) :
  selected_category s = selected_category t ->
  selected_brand s = selected_brand t ->
  duration_range s = duration_range t ->
  from_treemap s = from_treemap t -> s = t.
Proof. destruct s, t. simpl. by intros -> -> -> ->. Qed.

Lemma preselected_offered options x : x ∈ options -> preselected options x = x.
Proof.
  intros Hin. unfold preselected, selectbox.
  destruct (index_Some x options Hin) as (i & -> & Hi). simpl. by rewrite Hi.
Qed.

Lemma preselected_missing h options x :
  x ∉ h :: options -> preselected (h :: options) x = h.
Proof.
  intros Hnot. unfold preselected, selectbox.
  by rewrite (proj2 (index_None x (h :: options)) Hnot).
Qed.

Lemma brand_section_brand df held ss :
  selected_brand (brand_section df held ss) =
    match held with
    | Some v => v
    | None => preselected (all_brands df) (selected_brand ss)
    end.
Proof. by destruct held. Qed.

(** What lines 197-214 leave as the category, from the category and the flag
    they find. *)
Lemma category_section_category df held ss :
  selected_category (category_section df held ss) =
    selected_category (set_category
      (selectbox (all_categories df) (default_category_index df ss) held) ss).
Proof. done. Qed.

Lemma fresh_category_choice df ss :
  let sel := selectbox (all_categories df) (default_category_index df ss) None in
  (sel = "All Categories") \/
  (selected_category ss = Some sel /\ sel <> "" /\ sel ∈ map device_category df).
Proof.
  cbn zeta.
  destruct (selected_category ss) as [c|] eqn:Hc.
  - destruct (decide (c <> "" /\ c ∈ map device_category df)) as [[H1 H2]|Hno].
    + right. unfold selectbox.
      rewrite (default_category_index_points_at_selection df ss c Hc H2 H1). done.
    + left. unfold default_category_index. rewrite Hc.
      case_bool_decide as H1; [|done]. case_bool_decide as H2; [|done].
      apply (proj1 (elem_of_unique _ _)) in H2. tauto.
  - left. unfold default_category_index. by rewrite Hc.
Qed.

Lemma with_category_same ss : with_category (selected_category ss) ss = ss.
Proof. by destruct ss. Qed.

Lemma set_category_idem c ss : set_category c (set_category c ss) = set_category c ss.
Proof.
  unfold set_category. case_bool_decide; [done|].
  destruct (from_treemap ss) eqn:E; simpl; by rewrite ?E.
Qed.

Lemma set_category_sentinel_fresh df ss :
  selectbox (all_categories df)
    (default_category_index df (set_category "All Categories" ss)) None
  = "All Categories" \/ set_category "All Categories" ss = ss.
Proof.
  unfold set_category. rewrite bool_decide_false by (intros H; by apply H).
  destruct (from_treemap ss); [by right|by left].
Qed.

Lemma category_section_idem df held ss :
  category_section df held (category_section df held ss) = category_section df held ss.
Proof.
  destruct held as [v|].
  { unfold category_section, selectbox. apply set_category_idem. }
  set (sel := selectbox (all_categories df) (default_category_index df ss) None).
  change (category_section df None ss) with (set_category sel ss).
  destruct (decide (sel = "All Categories")) as [Hs|Hs].
  - rewrite Hs.
    destruct (set_category_sentinel_fresh df ss) as [Hnext|Hsame].
    + unfold category_section. rewrite Hnext. apply set_category_idem.
    + rewrite Hsame. unfold category_section. fold sel. by rewrite Hs.
  - destruct (fresh_category_choice df ss) as [?|(Hcat & _)]; [done|]. fold sel in Hcat.
    assert (set_category sel ss = ss) as Hsame.
    { unfold set_category. rewrite bool_decide_true by done.
      rewrite <- Hcat. apply with_category_same. }
    rewrite Hsame. unfold category_section. by fold sel.
Qed.

Lemma brand_section_idem df held ss :
  brand_section df held (brand_section df held ss) = brand_section df held ss.
Proof.
  apply state_ext; try done.
  rewrite !brand_section_brand. destruct held as [v|]; [done|].
  destruct (decide (selected_brand ss ∈ all_brands df)) as [Hin|Hnot].
  - by rewrite !(preselected_offered _ _ Hin).
  - unfold all_brands in *. rewrite (preselected_missing _ _ _ Hnot).
    apply preselected_offered. by left.
Qed.

Lemma duration_section_idem held ss :
  duration_section held (duration_section held ss) = duration_section held ss.
Proof.
  unfold duration_section.
  destruct (duration_range ss) as [v|] eqn:E; cbn; [|by rewrite E].
  by destruct held.
Qed.

Lemma init_duration_range_idem df ss :
  init_duration_range df (init_duration_range df ss) = init_duration_range df ss.
Proof.
  unfold init_duration_range. destruct (duration_range ss) eqn:E; cbn; by rewrite ?E.
Qed.

(** The three sidebar blocks read and write fields of their own. *)
Lemma brand_section_category df held ss :
  selected_category (brand_section df held ss) = selected_category ss.
Proof. done. Qed.

Lemma brand_section_range df held ss :
  duration_range (brand_section df held ss) = duration_range ss.
Proof. done. Qed.

Lemma brand_section_flag df held ss :
  from_treemap (brand_section df held ss) = from_treemap ss.
Proof. done. Qed.

Lemma category_section_brand df held ss :
  selected_brand (category_section df held ss) = selected_brand ss.
Proof. unfold category_section. apply set_category_frame. Qed.

Lemma category_section_flag df held ss :
  from_treemap (category_section df held ss) = from_treemap ss.
Proof. unfold category_section. apply set_category_frame. Qed.

Lemma duration_section_brand held ss :
  selected_brand (duration_section held ss) = selected_brand ss.
Proof. unfold duration_section. by destruct (duration_range ss). Qed.

Lemma duration_section_category held ss :
  selected_category (duration_section held ss) = selected_category ss.
Proof. unfold duration_section. by destruct (duration_range ss). Qed.

Lemma duration_section_flag held ss :
  from_treemap (duration_section held ss) = from_treemap ss.
Proof. unfold duration_section. by destruct (duration_range ss). Qed.

Lemma init_duration_range_brand df ss :
  selected_brand (init_duration_range df ss) = selected_brand ss.
Proof. unfold init_duration_range. by destruct (duration_range ss). Qed.

Lemma init_duration_range_category df ss :
  selected_category (init_duration_range df ss) = selected_category ss.
Proof. unfold init_duration_range. by destruct (duration_range ss). Qed.

Lemma init_duration_range_flag df ss :
  from_treemap (init_duration_range df ss) = from_treemap ss.
Proof. unfold init_duration_range. by destruct (duration_range ss). Qed.

Create Rewrite HintDb fields.
#[local] Hint Rewrite brand_section_category brand_section_range brand_section_flag
  category_section_brand category_section_range category_section_flag
  duration_section_brand duration_section_category duration_section_flag
  init_duration_range_brand init_duration_range_category init_duration_range_flag
  : fields.

Lemma category_section_reads df held ss ss' :
  selected_category ss = selected_category ss' ->
  from_treemap ss = from_treemap ss' ->
  selected_category (category_section df held ss)
    = selected_category (category_section df held ss').
Proof.
  intros Hc Hf. unfold category_section, default_category_index, set_category.
  rewrite Hc, Hf. case_bool_decide; [done|].
  destruct (from_treemap ss'); simpl; congruence.
Qed.

Lemma duration_section_reads held ss ss' :
  duration_range ss = duration_range ss' ->
  duration_range (duration_section held ss) = duration_range (duration_section held ss').
Proof.
  intros H. unfold duration_section.
  destruct (duration_range ss) eqn:E, (duration_range ss') eqn:E'; cbn; congruence.
Qed.

Lemma brand_section_reads df held ss ss' :
  selected_brand ss = selected_brand ss' ->
  selected_brand (brand_section df held ss) = selected_brand (brand_section df held ss').
Proof. intros H. rewrite !brand_section_brand. by rewrite H. Qed.

(** The three sidebar blocks read and write fields of their own: run in any
    order, they leave the same session state. *)
Theorem sidebar_blocks_commute df b c d ss :
  brand_section df b (category_section df c ss)
    = category_section df c (brand_section df b ss) /\
  brand_section df b (duration_section d ss)
    = duration_section d (brand_section df b ss) /\
  category_section df c (duration_section d ss)
    = duration_section d (category_section df c ss).
Proof.
  split; [|split]; apply state_ext; autorewrite with fields; try done.
  - symmetry. apply category_section_reads; by autorewrite with fields.
  - apply brand_section_reads. by autorewrite with fields.
  - apply brand_section_reads. by autorewrite with fields.
  - symmetry. apply duration_section_reads. by autorewrite with fields.
  - apply category_section_reads; by autorewrite with fields.
  - symmetry. apply duration_section_reads. by autorewrite with fields.
Qed.

Lemma after_sidebar_brand df ui ss :
  selected_brand (after_sidebar df ui ss)
    = selected_brand (brand_section df (brand_selectbox ui) ss).
Proof.
  unfold after_sidebar. autorewrite with fields.
  apply brand_section_reads. by autorewrite with fields.
Qed.

Lemma after_sidebar_category df ui ss :
  selected_category (after_sidebar df ui ss)
    = selected_category (category_section df (category_selectbox ui) ss).
Proof.
  unfold after_sidebar. autorewrite with fields.
  apply category_section_reads; by autorewrite with fields.
Qed.

Lemma after_sidebar_duration df ui ss :
  duration_range (after_sidebar df ui ss)
    = duration_range (duration_section (duration_slider ui) (init_duration_range df ss)).
Proof.
  unfold after_sidebar. apply duration_section_reads. by autorewrite with fields.
Qed.

Lemma after_sidebar_flag df ui ss :
  from_treemap (after_sidebar df ui ss) = from_treemap ss.
Proof. unfold after_sidebar. by autorewrite with fields. Qed.

Lemma after_sidebar_idem df ui ss :
  after_sidebar df ui (after_sidebar df ui ss) = after_sidebar df ui ss.
Proof.
  apply state_ext.
  - rewrite !after_sidebar_category.
    rewrite <- (category_section_idem df (category_selectbox ui) ss).
    apply category_section_reads.
    + apply after_sidebar_category.
    + rewrite after_sidebar_flag. by autorewrite with fields.
  - rewrite !after_sidebar_brand.
    rewrite <- (brand_section_idem df (brand_selectbox ui) ss).
    apply brand_section_reads, after_sidebar_brand.
  - rewrite !after_sidebar_duration.
    set (s1 := init_duration_range df ss).
    rewrite <- (duration_section_idem (duration_slider ui) s1).
    apply duration_section_reads.
    destruct (after_sidebar_range df ui ss) as (lo & hi & Hr).
    unfold init_duration_range. rewrite Hr. cbn.
    apply after_sidebar_duration.
  - by rewrite !after_sidebar_flag.
Qed.

(** A rerun with nothing new changes nothing on a rendered page: from the
    state the run left, with the widgets holding what they held, the next
    run renders the same page and leaves the same state. *)
Theorem rendered_page_is_stable df ss ui ss' out m :
  dashboard df ss ui = Rendered ss' out m ->
  dashboard df ss' ui = Rendered ss' out m.
Proof.
  intros Hrun.
  assert (clear_button ui = false) as Hclear.
  { destruct (clear_button ui) eqn:E; [|done].
    unfold dashboard in Hrun. by rewrite E in Hrun. }
  destruct (dashboard_Rendered _ _ _ _ _ _ Hrun) as (-> & Hout & Hne & ->).
  destruct (dashboard_cases df (after_sidebar df ui ss) ui Hclear)
    as (out' & Hout' & ->).
  rewrite after_sidebar_idem in *.
  assert (out' = out) as -> by congruence.
  rewrite bool_decide_false; [done|]. by destruct out.
Qed.

Lemma rendered_page_is_stable_witness :
  let ui := {| brand_selectbox := Some "A"; category_selectbox := None;
               duration_slider := None; clear_button := false |} in
  exists ss' out m,
    dashboard two_devices new_session ui = Rendered ss' out m /\
    dashboard two_devices ss' ui = Rendered ss' out m.
Proof.
  cbn zeta. eexists _, _, _.
  assert (forall A B : Prop, A -> (A -> B) -> A /\ B) as Hand by tauto.
  apply Hand; [vm_compute; reflexivity|].
  apply rendered_page_is_stable.
Defined.


(** ** What the dropdowns offer and keep *)

Lemma string_leb_trans (a b c : string) :
  String.leb a b = true -> String.leb b c = true -> String.leb a c = true.
Proof.
  unfold String.leb. revert b c.
  induction a as [|x a IH]; intros [|y b] [|z c]; simpl; try done.
  unfold Ascii.compare.
  destruct (N.compare_spec (Ascii.N_of_ascii x) (Ascii.N_of_ascii y)),
           (N.compare_spec (Ascii.N_of_ascii y) (Ascii.N_of_ascii z)),
           (N.compare_spec (Ascii.N_of_ascii x) (Ascii.N_of_ascii z));
    try done; try lia.
  apply IH.
Qed.

#[local] Instance str_le_trans : Transitive str_le.
Proof. intros a b c. apply string_leb_trans. Qed.

#[local] Instance str_le_total : Total str_le.
Proof. intros a b. apply String.leb_total. Qed.

Lemma NoDup_unique (l : list string) : NoDup (unique l).
Proof.
  induction l as [|x l IH]; simpl; [constructor|].
  constructor; [|by apply NoDup_filter].
  rewrite list_elem_of_filter. by intros [? _].
Qed.

Lemma sorted_unique_spec (l : list string) :
  NoDup (sorted (unique l)) /\
  (forall x, x ∈ sorted (unique l) <-> x ∈ l) /\
  StronglySorted str_le (sorted (unique l)).
Proof.
  split; [|split].
  - unfold sorted. rewrite merge_sort_Permutation. apply NoDup_unique.
  - intros x. by rewrite elem_of_sorted, elem_of_unique.
  - unfold sorted. apply StronglySorted_merge_sort; apply _.
Qed.

(** After their leading "All Brands" / "All Categories", the options of the
    two dropdowns are the brands (categories) of the dataset, each exactly
    once, in ascending order of their bytes. *)
Theorem dropdown_options_list_each_value_once df :
  (exists rest, all_brands df = "All Brands" :: rest /\ NoDup rest /\
     (forall b, b ∈ rest <-> b ∈ map brand df) /\ StronglySorted str_le rest) /\
  (exists rest, all_categories df = "All Categories" :: rest /\ NoDup rest /\
     (forall c, c ∈ rest <-> c ∈ map device_category df) /\
     StronglySorted str_le rest).
Proof.
  split; eexists; (split; [reflexivity|]); apply sorted_unique_spec.
Qed.

(** With a brand dropdown that holds nothing, the brand of the session
    survives the run exactly when it is "All Brands" or a brand of the dataset;
    any other stored brand falls back to "All Brands". *)
Theorem brand_survives_iff_offered df ss :
  selected_brand (brand_section df None ss) =
    if bool_decide (selected_brand ss ∈ "All Brands" :: map brand df)
    then selected_brand ss else "All Brands".
Proof.
  rewrite brand_section_brand.
  assert (selected_brand ss ∈ all_brands df
          <-> selected_brand ss ∈ "All Brands" :: map brand df) as Hiff.
  { unfold all_brands. by rewrite !elem_of_cons, elem_of_sorted, elem_of_unique. }
  case_bool_decide as Hin.
  - apply preselected_offered. by apply Hiff.
  - unfold all_brands in *. apply preselected_missing.
    intros H. by apply Hin, Hiff.
Qed.

(** With a category dropdown that holds nothing (and no [_from_treemap]), the
    category of the session survives the run exactly when it is a non-empty
    category of the dataset other than "All Categories"; any other stored
    category is cleared to [None]. *)
Theorem category_survives_iff_offered df ss :
  from_treemap ss = false ->
  selected_category (category_section df None ss) =
    match selected_category ss with
    | Some c =>
        if bool_decide (c <> "" /\ c <> "All Categories" /\ c ∈ map device_category df)
        then Some c else None
    | None => None
    end.
Proof.
  intros Hflag. unfold category_section.
  pose proof (fresh_category_choice df ss) as Hfresh. cbn zeta in Hfresh.
  set (sel := selectbox (all_categories df) (default_category_index df ss) None) in *.
  assert (set_category "All Categories" ss = with_category None ss) as Hreset.
  { unfold set_category. simpl. by rewrite Hflag. }
  destruct (selected_category ss) as [c|] eqn:Hc.
  - case_bool_decide as Hok.
    + destruct Hok as (Hne & Hsent & Hin).
      assert (sel = c) as ->.
      { unfold sel, selectbox.
        by rewrite (default_category_index_points_at_selection df ss c Hc Hin Hne). }
      unfold set_category. by rewrite bool_decide_true.
    + destruct (decide (sel = "All Categories")) as [Hs|Hs].
      * by rewrite Hs, Hreset.
      * exfalso. destruct Hfresh as [?|(Hcat & Hne & Hin)]; [done|].
        injection Hcat as ->. by apply Hok.
  - assert (sel = "All Categories") as ->.
    { unfold sel, default_category_index. by rewrite Hc. }
    by rewrite Hreset.
Qed.

Lemma category_survives_iff_offered_witness :
  from_treemap (with_category (Some "Laptops") (default_state phones)) = false /\
  selected_category
    (category_section phones None (with_category (Some "Laptops") (default_state phones)))
  = match selected_category (with_category (Some "Laptops") (default_state phones)) with
    | Some c =>
        if bool_decide (c <> "" /\ c <> "All Categories"
                        /\ c ∈ map device_category phones)
        then Some c else None
    | None => None
    end.
Proof.
  split; [reflexivity|].
  apply (category_survives_iff_offered phones). reflexivity.
Defined.


(** The state "Clear All Filters" writes selects everything, whatever the
    state before the click: the next run hands index 0 ("All Brands", "All
    Categories") to both dropdowns and the full observed range to the slider,
    and the filter block run on that state keeps the whole of a dataset whose
    durations are all numbers. *)
Theorem cleared_state_selects_everything df ss :
  Forall (fun r => not_nan (duration r)) df ->
  brand_index df (clear_all df ss) = 0 /\
  default_category_index df (clear_all df ss) = 0 /\
  duration_range (clear_all df ss) = Some (observed_range df) /\
  apply_filters df (clear_all df ss) = Ok df.
Proof.
  intros Hnum. split.
  { unfold brand_index, all_brands. cbn [clear_all with_range with_brand selected_brand].
    by rewrite index_head. }
  split; [done|]. split; [done|].
  unfold apply_filters. simpl. f_equal. by apply default_state_keeps_numbers.
Qed.

Lemma cleared_state_selects_everything_witness :
  let ss := set_duration_range (4.0, 3.0)%float
              (set_brand "B" (select_from_chart "Phone" new_session)) in
  Forall (fun r => not_nan (duration r)) two_devices /\
  brand_index two_devices (clear_all two_devices ss) = 0 /\
  default_category_index two_devices (clear_all two_devices ss) = 0 /\
  duration_range (clear_all two_devices ss) = Some (observed_range two_devices) /\
  apply_filters two_devices (clear_all two_devices ss) = Ok two_devices.
Proof.
  cbn zeta.
  assert (Forall (fun r => not_nan (duration r)) two_devices) as Hnum
    by (repeat constructor).
  split; [exact Hnum|].
  exact (cleared_state_selects_everything two_devices _ Hnum).
Defined.


(** ** Loading, continued *)

Lemma elem_of_select_keep (first label : string) (cols : list string) :
  label ∈ select (map (fun c => bool_decide (c <> first)) cols) cols
  <-> label ∈ cols /\ label <> first.
Proof.
  induction cols as [|c cols IH]; simpl.
  - split; [intros H; by inversion H|intros [H _]; by inversion H].
  - case_bool_decide as Hc; rewrite ?elem_of_cons, IH; intuition (subst; auto; congruence).
Qed.

Lemma index_is_Some (x : string) (l : list string) : is_Some (index x l) <-> x ∈ l.
Proof.
  split.
  - intros [i Hi]. destruct (decide (x ∈ l)) as [|Hn]; [done|].
    apply index_None in Hn. congruence.
  - intros Hin. destruct (index_Some x l Hin) as (i & Hi & _). by exists i.
Qed.

Lemma columns_set_column label vs df l :
  l ∈ columns (set_column label vs df) <-> l ∈ columns df \/ l = label.
Proof.
  unfold set_column. destruct (index label (columns df)) as [i|] eqn:Hi; simpl.
  - split; [by left|]. intros [?| ->]; [done|].
    apply index_is_Some. by exists i.
  - rewrite elem_of_app, list_elem_of_singleton. done.
Qed.

Lemma get_column_Ok_iff label df :
  (exists vs, get_column label df = Ok vs) <-> label ∈ columns df.
Proof.
  unfold get_column. rewrite <- index_is_Some.
  destruct (index label (columns df)); split; eauto.
  - by intros [? ?].
  - by intros [? ?].
Qed.

(** The steps of a successful [load_data], one by one. *)
Lemma load_data_Ok parse df loaded :
  load_data parse (Some df) = Ok loaded ->
  exists first cols s0 s1 e0 e1,
    columns df = first :: cols /\
    get_column "Start Date" (drop_column first df) = Ok s0 /\
    to_datetime parse s0 = Ok s1 /\
    get_column "End Date" (set_column "Start Date" s1 (drop_column first df)) = Ok e0 /\
    to_datetime parse e0 = Ok e1 /\
    exists s2 e2,
      loaded = {| shown := [];
                  returned := Some
                    (set_column "End Year" (dt_year e2)
                       (set_column "Start Year" (dt_year s2)
                          (set_column "End Date" e1
                             (set_column "Start Date" s1 (drop_column first df))))) |} /\
      length s1 = length (rows df) /\ length e1 = length (rows df) /\
      length s2 = length (rows df) /\ length e2 = length (rows df).
Proof.
  unfold load_data.
  destruct (columns df) as [|first cols] eqn:Hcols; [done|].
  intros H.
  apply bind_Ok in H as (s0 & Hs0 & H).
  apply bind_Ok in H as (s1 & Hs1 & H).
  apply bind_Ok in H as (e0 & He0 & H).
  apply bind_Ok in H as (e1 & He1 & H).
  apply bind_Ok in H as (s2 & Hs2 & H).
  apply bind_Ok in H as (e2 & He2 & H).
  injection H as <-.
  set (df0 := drop_column first df) in *.
  set (df1 := set_column "Start Date" s1 df0) in *.
  set (df2 := set_column "End Date" e1 df1) in *.
  assert (length (rows df0) = length (rows df)) as L0.
  { unfold df0, drop_column. simpl. by rewrite length_map. }
  assert (length s1 = length (rows df)) as Ls1.
  { rewrite (map_result_length _ _ _ Hs1). apply get_column_length in Hs0. congruence. }
  assert (length (rows df1) = length (rows df)) as L1.
  { unfold df1. rewrite set_column_length; congruence. }
  assert (length e1 = length (rows df)) as Le1.
  { rewrite (map_result_length _ _ _ He1). apply get_column_length in He0. congruence. }
  assert (length (rows df2) = length (rows df)) as L2.
  { unfold df2. rewrite set_column_length; congruence. }
  assert (length s2 = length (rows df)) as Ls2.
  { apply get_column_length in Hs2. congruence. }
  assert (length e2 = length (rows df)) as Le2.
  { apply get_column_length in He2. rewrite He2.
    rewrite set_column_length; [done|]. unfold dt_year. rewrite length_map. congruence. }
  exists first, cols, s0, s1, e0, e1. repeat (split; [done|]).
  exists s2, e2. done.
Qed.

(** A successful [load_data] neither drops nor adds a row, keeps a
    rectangular sheet rectangular, and returns exactly the labels of the sheet
    other than the leading one, together with [Start Year] and [End Year]. *)
Theorem load_data_keeps_every_row parse df loaded :
  load_data parse (Some df) = Ok loaded ->
  exists first out,
    head (columns df) = Some first /\ returned loaded = Some out /\
    length (rows out) = length (rows df) /\
    (rectangular df -> rectangular out) /\
    forall label, label ∈ columns out <->
      (label ∈ columns df /\ label <> first) \/
      label = "Start Year" \/ label = "End Year".
Proof.
  intros (first & cols & s0 & s1 & e0 & e1 & Hcols & Hs0 & Hs1 & He0 & He1
          & s2 & e2 & -> & Ls1 & Le1 & Ls2 & Le2)%load_data_Ok.
  assert (length (rows (drop_column first df)) = length (rows df)) as L0.
  { unfold drop_column. simpl. by rewrite length_map. }
  eexists first, _. split; [by rewrite Hcols|]. split; [reflexivity|].
  split; [|split].
  - assert (forall l vs d, length vs = length (rows df) ->
              length (rows d) = length (rows df) ->
              length (rows (set_column l vs d)) = length (rows df)) as Hstep.
    { intros l vs d Hv Hd. rewrite set_column_length; congruence. }
    repeat apply Hstep; unfold dt_year; rewrite ?length_map; done.
  - intros Hrect. repeat apply set_column_rectangular.
    by apply drop_column_rectangular.
  - intros label. rewrite !columns_set_column.
    unfold drop_column at 1. cbn [columns]. rewrite elem_of_select_keep.
    assert ("Start Date" ∈ columns (drop_column first df)) as HS.
    { apply get_column_Ok_iff. eauto. }
    assert ("End Date" ∈ columns (drop_column first df)) as HE.
    { assert ("End Date" ∈ columns (set_column "Start Date" s1 (drop_column first df))) as H
        by (apply get_column_Ok_iff; eauto).
      apply columns_set_column in H as [?|?]; done. }
    unfold drop_column in HS, HE. cbn [columns] in HS, HE.
    rewrite elem_of_select_keep in HS, HE.
    split; [|tauto]. intros [[[[?| ->]| ->]|?]|?]; tauto.
Qed.

Lemma load_data_keeps_every_row_witness :
  exists loaded,
    load_data parse_sample (Some sheet_of_two) = Ok loaded /\
    exists first out,
      head (columns sheet_of_two) = Some first /\ returned loaded = Some out /\
      length (rows out) = length (rows sheet_of_two) /\
      (rectangular sheet_of_two -> rectangular out) /\
      forall label, label ∈ columns out <->
        (label ∈ columns sheet_of_two /\ label <> first) \/
        label = "Start Year" \/ label = "End Year".
Proof.
  eexists. 
  assert (forall A B : Prop, A -> (A -> B) -> A /\ B) as Hand by tauto.
  apply Hand; [vm_compute; reflexivity|].
  apply load_data_keeps_every_row.
Defined.


(** On a rectangular sheet, [load_data] succeeds exactly when the sheet has
    a leading column that is neither [Start Date] nor [End Date], has both of
    these columns, and [pd.to_datetime] accepts them; in every other case it
    raises. In particular a sheet whose first column is one of the two date
    columns cannot be loaded: the column is dropped before it is read. *)
Theorem load_data_succeeds_iff parse df :
  rectangular df ->
  (exists loaded, load_data parse (Some df) = Ok loaded) <->
  (exists first s e s' e',
     head (columns df) = Some first /\
     first <> "Start Date" /\ first <> "End Date" /\
     get_column "Start Date" df = Ok s /\ get_column "End Date" df = Ok e /\
     to_datetime parse s = Ok s' /\ to_datetime parse e = Ok e').
Proof.
  intros Hrect. split.
  - intros (loaded & (first & cols & s0 & s1 & e0 & e1 & Hcols & Hs0 & Hs1 & He0 & He1
                      & _)%load_data_Ok).
    assert (rectangular (drop_column first df)) as Hrect0
      by (by apply drop_column_rectangular).
    assert (length s1 = length (rows (drop_column first df))) as Ls1.
    { rewrite (map_result_length _ _ _ Hs1). by apply get_column_length in Hs0. }
    rewrite get_set_other in He0 by done.
    assert (first <> "Start Date") as Hfs.
    { intros ->. by rewrite drop_column_first_gone in Hs0. }
    assert (first <> "End Date") as Hfe.
    { intros ->. by rewrite drop_column_first_gone in He0. }
    rewrite get_drop_other in Hs0, He0 by done.
    exists first, s0, e0, s1, e1. by rewrite Hcols.
  - intros (first & s & e & s' & e' & Hhead & Hfs & Hfe & Hs & He & Hs' & He').
    unfold load_data. destruct (columns df) as [|f cols] eqn:Hcols; [done|].
    injection Hhead as ->.
    set (df0 := drop_column first df).
    assert (rectangular df0) as Hrect0 by (by apply drop_column_rectangular).
    assert (get_column "Start Date" df0 = Ok s) as -> by
      (unfold df0; by rewrite get_drop_other).
    cbn [bind]. rewrite Hs'. cbn [bind].
    assert (length s' = length (rows df0)) as Ls.
    { rewrite (map_result_length _ _ _ Hs').
      apply (get_column_length "Start Date"). unfold df0. by rewrite get_drop_other. }
    set (df1 := set_column "Start Date" s' df0).
    assert (rectangular df1) as Hrect1 by (by apply set_column_rectangular).
    assert (get_column "End Date" df1 = Ok e) as ->.
    { unfold df1. rewrite get_set_other by done. unfold df0. by rewrite get_drop_other. }
    cbn [bind]. rewrite He'. cbn [bind].
    assert (length e' = length (rows df1)) as Le.
    { rewrite (map_result_length _ _ _ He'). unfold df1.
      rewrite set_column_length by done.
      apply (get_column_length "End Date"). unfold df0. by rewrite get_drop_other. }
    set (df2 := set_column "End Date" e' df1).
    assert (rectangular df2) as Hrect2 by (by apply set_column_rectangular).
    assert (get_column "Start Date" df2 = Ok s') as ->.
    { unfold df2. rewrite get_set_other by done. unfold df1. by rewrite get_set_same. }
    cbn [bind].
    set (df3 := set_column "Start Year" (dt_year s') df2).
    assert (get_column "End Date" df3 = Ok e') as ->.
    { unfold df3. rewrite get_set_other; [|done|done|].
      - unfold df2. by rewrite get_set_same.
      - unfold dt_year, df2. rewrite length_map, set_column_length by done.
        unfold df1. by rewrite set_column_length. }
    cbn [bind]. eauto.
Qed.

Lemma load_data_succeeds_iff_witness :
  rectangular sheet_of_two /\
  ((exists loaded, load_data parse_sample (Some sheet_of_two) = Ok loaded) <->
   (exists first s e s' e',
      head (columns sheet_of_two) = Some first /\
      first <> "Start Date" /\ first <> "End Date" /\
      get_column "Start Date" sheet_of_two = Ok s /\
      get_column "End Date" sheet_of_two = Ok e /\
      to_datetime parse_sample s = Ok s' /\ to_datetime parse_sample e = Ok e')).
Proof.
  assert (rectangular sheet_of_two) as Hrect.
  { unfold rectangular. simpl. repeat constructor. }
  split; [exact Hrect|].
  exact (load_data_succeeds_iff parse_sample sheet_of_two Hrect).
Defined.


(** ** The timeline *)

Lemma add_traces_app data idx cats :
  exists new, add_traces data idx cats = data ++ new /\
    map trace_name new = cats /\
    map legendgroup new = cats /\
    map trace_y new = seq idx (length cats) /\
    map trace_name (filter (fun t => showlegend t = true) new)
      = filter (fun c => c ∉ map trace_name data) (unique cats).
Proof.
  revert data idx. induction cats as [|c cats IH]; intros data idx; simpl.
  - exists []. by rewrite app_nil_r.
  - destruct (IH (data ++ [{| trace_name := c; legendgroup := c;
                              showlegend := bool_decide (c ∉ map trace_name data);
                              trace_y := idx |}]) (S idx))
      as (new & -> & Hn & Hg & Hy & Hl).
    eexists (_ :: new). split; [by rewrite <- app_assoc|]. simpl.
    rewrite Hn, Hg, Hy. repeat (split; [done|]).
    assert (filter (fun c0 => c0 ∉ map trace_name data)
              (filter (fun y => y <> c) (unique cats))
            = filter (fun c0 => c0 ∉ map trace_name
                (data ++ [{| trace_name := c; legendgroup := c;
                             showlegend := bool_decide (c ∉ map trace_name data);
                             trace_y := idx |}])) (unique cats)) as Hrest.
    { rewrite list_filter_filter. apply list_filter_iff. intros x.
      rewrite map_app, not_elem_of_app. simpl.
      by rewrite list_elem_of_singleton. }
    destruct (decide (c ∉ map trace_name data)) as [Hc|Hc].
    + rewrite (filter_cons_True (fun t => showlegend t = true))
        by (simpl; by apply bool_decide_eq_true).
      rewrite (filter_cons_True _ c) by done.
      simpl. by rewrite Hl, Hrest.
    + rewrite (filter_cons_False (fun t => showlegend t = true))
        by (simpl; by rewrite bool_decide_eq_true).
      rewrite (filter_cons_False _ c) by done. by rewrite Hl, Hrest.
Qed.

Lemma py_len_app (a b : string) : py_len (String.append a b) = py_len a + py_len b.
Proof.
  induction a as [|x a IH]; [done|]. simpl. destruct (continues_char x); simpl; lia.
Qed.

Lemma py_len_take (n : nat) (s : string) : py_len (py_take n s) = n `min` py_len s.
Proof.
  revert n. induction s as [|b s IH]; intros n; simpl; [lia|].
  destruct (continues_char b) eqn:E; simpl; rewrite ?E; [apply IH|].
  destruct n as [|n]; simpl; rewrite ?E, ?IH; lia.
Qed.

(** The timeline gets one trace per record of the view, named after its
    category and placed at y = 0, 1, 2, ... in the order of the view, which are
    the tick positions of line 367. The traces flagged for the legend are the
    first of each category: their names are the distinct categories of the
    view in order of first appearance, and their number is the "Device
    Categories" metric. *)
Theorem timeline_legend_and_ticks (filtered_df : list Device) :
  let traces := timeline_traces filtered_df in
  map trace_name traces = map device_category filtered_df /\
  map trace_y traces = seq 0 (length filtered_df) /\
  map trace_name (filter (fun t => showlegend t = true) traces)
    = unique (map device_category filtered_df) /\
  length (filter (fun t => showlegend t = true) traces)
    = unique_categories (key_metrics filtered_df).
Proof.
  cbn zeta. unfold timeline_traces.
  destruct (add_traces_app [] 0 (map device_category filtered_df))
    as (new & -> & Hn & _ & Hy & Hl).
  simpl in *. rewrite length_map in Hy.
  assert (map trace_name (filter (fun t => showlegend t = true) new)
          = unique (map device_category filtered_df)) as Hlegend.
  { rewrite Hl. apply filter_all. apply Forall_forall. intros x _ H. by inversion H. }
  repeat (split; [done|]).
  unfold nunique. by rewrite <- Hlegend, length_map.
Qed.

(** A tick label of the timeline has at most 33 characters: a name of up to
    30 characters is shown whole, a longer one is cut to its first 30
    characters followed by "...". A name that is not text (a blank cell) makes
    [len] raise [TypeError]. *)
Theorem tick_text_bound (name : Cell) :
  match tick_text name with
  | Ok label =>
      py_len label <= 33 /\
      exists s, name = CStr s /\
        (py_len s <= 30 -> label = s) /\
        (30 < py_len s -> label = String.append (py_take 30 s) "..." /\ py_len label = 33)
  | Raise e => e = TypeError /\ forall s, name <> CStr s
  end.
Proof.
  destruct name as [s| | | |]; simpl; try done.
  destruct (Nat.ltb_spec 30 (py_len s)) as [Hlong|Hshort].
  - assert (py_len (String.append (py_take 30 s) "...") = 33) as Hlen.
    { rewrite py_len_app, py_len_take. change (py_len "...") with 3. lia. }
    split; [lia|]. exists s. split; [done|]. split; [lia|done].
  - split; [lia|]. exists s. split; [done|]. split; [done|lia].
Qed.
